(** * WebAgent: the action parser, the prompt builders and the /act handler

A shallow embedding of [src/action_generator.py], [src/html_optimizer.py],
[src/llm_client.py], [src/prompts.py] and [main.py], together with the
parts of the Python runtime those files call: [str.strip],
[str.endswith], [json.loads], [string.Template.substitute], the pydantic
models declared in [src/action_generator.py] and their [__str__].

Conventions.
- A Python [str] is a list of Unicode code points ([list N]).
- A value produced by [json.loads] is a [JSON] tree; a [dict] is an
  association list in insertion order with unique keys.
- Code that may raise runs in the exception monad [Res].
- Interpreter resource limits (recursion depth, memory) are not part of
  the model. *)

From Stdlib Require Import List NArith ZArith Bool Ascii String Lia PeanoNat.
Import ListNotations.

Set Implicit Arguments.
Set Warnings "-register-all".
Local Open Scope N_scope.

(* ================================================================= *)
(** ** Python strings *)

Module Str.

(** A Python [str]: a sequence of code points. *)
Definition str : Type := list N.

(** The code points of an ASCII literal. *)
Definition py (s : string) : str :=
  List.map N_of_ascii (list_ascii_of_string s).

(** Same as [py], with every grave accent (U+0060) standing for a
    quotation mark (U+0022), so that JSON text can be written down. *)
Definition pyq (s : string) : str :=
  List.map (fun c => if c =? 96 then 34 else c) (py s).

Fixpoint eqb (a b : str) : bool :=
  match a, b with
  | [], [] => true
  | x :: a', y :: b' => (x =? y) && eqb a' b'
  | _, _ => false
  end.

(** [a.startswith(p)] *)
Fixpoint startswith (a p : str) : bool :=
  match p, a with
  | [], _ => true
  | y :: p', x :: a' => (x =? y) && startswith a' p'
  | _ :: _, [] => false
  end.

(** [a.endswith(p)] *)
Definition endswith (a p : str) : bool :=
  startswith (rev a) (rev p).

(** [str.isspace] on one code point (CPython's [_PyUnicode_IsWhitespace]). *)
Definition isspace (c : N) : bool :=
  ((9 <=? c) && (c <=? 13)) || ((28 <=? c) && (c <=? 32))
  || (c =? 133) || (c =? 160) || (c =? 5760)
  || ((8192 <=? c) && (c <=? 8202))
  || (c =? 8232) || (c =? 8233) || (c =? 8239) || (c =? 8287)
  || (c =? 12288).

(** [s.lstrip()] *)
Fixpoint lstrip (s : str) : str :=
  match s with
  | c :: s' => if isspace c then lstrip s' else s
  | [] => []
  end.

(** [s.rstrip()] *)
Definition rstrip (s : str) : str := rev (lstrip (rev s)).

(** [s.strip()] *)
Definition strip (s : str) : str := rstrip (lstrip s).

(** [sep.join(parts)] *)
Fixpoint join (sep : str) (parts : list str) : str :=
  match parts with
  | [] => []
  | [p] => p
  | p :: rest => p ++ sep ++ join sep rest
  end.

(** [needle in hay] *)
Definition contains (hay needle : str) : Prop :=
  exists pre post, hay = pre ++ needle ++ post.

(** Decimal digits of a natural number, most significant first. *)
Fixpoint digits_fuel (fuel : nat) (n : N) (acc : str) : str :=
  match fuel with
  | O => acc
  | S fuel' =>
      let acc' := (48 + n mod 10) :: acc in
      if n <? 10 then acc' else digits_fuel fuel' (n / 10) acc'
  end.

Definition digits (n : N) : str := digits_fuel (S (N.to_nat (N.log2 n))) n [].

(** [str(z)] for an [int]. *)
Definition of_int (z : Z) : str :=
  match z with
  | Zneg p => 45 :: digits (Npos p)
  | _ => digits (Z.to_N z)
  end.

(** [s[a:b]] for [0 <= a <= b]. *)
Definition slice (s : str) (a b : nat) : str := firstn (b - a) (skipn a s).

End Str.

Import Str.
Arguments py s%_string.
Arguments pyq s%_string.

(* ================================================================= *)
(** ** Values of [json.loads] *)

Module Json.

(** A JSON number with a fraction or an exponent, or one of the constants
    [NaN], [Infinity], [-Infinity].  [FDec neg m e] is the literal whose
    exact value is [(-1)^neg * m * 10^e]; Python's [float] of the literal is
    the binary64 number nearest to it. *)
Inductive FloatLit : Type :=
| FNaN
| FInf (neg : bool)
| FDec (neg : bool) (m : N) (e : Z).

Inductive JSON : Type :=
| JNull                              (* None *)
| JBool (b : bool)                   (* True / False *)
| JInt (z : Z)                       (* int *)
| JFloat (f : FloatLit)              (* float *)
| JStr (s : str)                     (* str *)
| JList (l : list JSON)              (* list *)
| JDict (d : list (str * JSON)).     (* dict *)

Definition dict : Type := list (str * JSON).

(** [d[k] = v] *)
Fixpoint dict_set (d : dict) (k : str) (v : JSON) : dict :=
  match d with
  | [] => [(k, v)]
  | (k', v') :: d' =>
      if Str.eqb k' k then (k', v) :: d' else (k', v') :: dict_set d' k v
  end.

(** [k in d], with the value *)
Fixpoint dict_find (d : dict) (k : str) : option JSON :=
  match d with
  | [] => None
  | (k', v) :: d' => if Str.eqb k' k then Some v else dict_find d' k
  end.

(** [d.get(k, default)] *)
Definition dict_get (d : dict) (k : str) (default : JSON) : JSON :=
  match dict_find d k with
  | Some v => v
  | None => default
  end.

(** [float(lit) == 0.0]: the literal is zero, or it is at most [2^-1075],
    half of the least subnormal, and rounds to zero (ties to even). *)
Definition float_is_zero (f : FloatLit) : bool :=
  match f with
  | FNaN | FInf _ => false
  | FDec _ m e =>
      (m =? 0) ||
      match e with
      | Zneg k => (m * 2 ^ 1075 <=? 10 ^ (Npos k))
      | _ => false
      end
  end.

(** [bool(v)] *)
Definition truthy (v : JSON) : bool :=
  match v with
  | JNull => false
  | JBool b => b
  | JInt z => negb (Z.eqb z 0)
  | JFloat f => negb (float_is_zero f)
  | JStr s => match s with [] => false | _ => true end
  | JList l => match l with [] => false | _ => true end
  | JDict d => match d with [] => false | _ => true end
  end.

(** *** The decoder *)

(** Outcome of scanning a prefix of the text: a value and the text left, a
    decoding error ([JSONDecodeError], or the [ValueError] of an [int]
    literal that is too long), or recursion fuel used up. *)
Inductive Scan (A : Type) : Type :=
| Done (v : A) (rest : str)
| Fail
| NoFuel.
Arguments Fail {A}.
Arguments NoFuel {A}.

(** [WHITESPACE]: space, tab, line feed, carriage return. *)
Definition is_ws (c : N) : bool :=
  (c =? 32) || (c =? 9) || (c =? 10) || (c =? 13).

Fixpoint skip_ws (s : str) : str :=
  match s with
  | c :: s' => if is_ws c then skip_ws s' else s
  | [] => []
  end.

Definition is_digit (c : N) : bool := (48 <=? c) && (c <=? 57).

Definition hex_val (c : N) : option N :=
  if is_digit c then Some (c - 48)
  else if (97 <=? c) && (c <=? 102) then Some (c - 87)
  else if (65 <=? c) && (c <=? 70) then Some (c - 55)
  else None.

(** Four hexadecimal digits of a [\uXXXX] escape. *)
Definition hex4 (a b c d : N) : option N :=
  match hex_val a, hex_val b, hex_val c, hex_val d with
  | Some x, Some y, Some z, Some w => Some (((x * 16 + y) * 16 + z) * 16 + w)
  | _, _, _, _ => None
  end.

(** [BACKSLASH] table of the decoder. *)
Definition unescape (c : N) : option N :=
  if c =? 34 then Some 34            (* quotation mark *)
  else if c =? 92 then Some 92       (* reverse solidus *)
  else if c =? 47 then Some 47       (* solidus *)
  else if c =? 98 then Some 8        (* b: backspace *)
  else if c =? 102 then Some 12      (* f: form feed *)
  else if c =? 110 then Some 10      (* n: line feed *)
  else if c =? 114 then Some 13      (* r: carriage return *)
  else if c =? 116 then Some 9       (* t: tab *)
  else None.

Definition is_high_surrogate (u : N) : bool := (55296 <=? u) && (u <=? 56319).
Definition is_low_surrogate (u : N) : bool := (56320 <=? u) && (u <=? 57343).
Definition join_surrogates (hi lo : N) : N :=
  65536 + ((hi - 55296) * 1024 + (lo - 56320)).

(** [scanstring(s, end, strict=True)]: [s] is the text after the opening
    quotation mark, [acc] the decoded characters so far, last first. *)
Fixpoint scanstring (s : str) (acc : str) : option (str * str) :=
  match s with
  | [] => None
  | c :: r =>
      if c =? 34 then Some (rev acc, r)
      else if c =? 92 then
        match r with
        | [] => None
        | e :: r1 =>
            if e =? 117 then
              match r1 with
              | h1 :: h2 :: h3 :: h4 :: r2 =>
                  match hex4 h1 h2 h3 h4 with
                  | None => None
                  | Some uni =>
                      if is_high_surrogate uni then
                        match r2 with
                        | b :: u :: k1 :: k2 :: k3 :: k4 :: r3 =>
                            if (b =? 92) && (u =? 117) then
                              match hex4 k1 k2 k3 k4 with
                              | None => None
                              | Some uni2 =>
                                  if is_low_surrogate uni2
                                  then scanstring r3 (join_surrogates uni uni2 :: acc)
                                  else scanstring r2 (uni :: acc)
                              end
                            else scanstring r2 (uni :: acc)
                        | _ => scanstring r2 (uni :: acc)
                        end
                      else scanstring r2 (uni :: acc)
                  end
              | _ => None
              end
            else
              match unescape e with
              | Some ch => scanstring r1 (ch :: acc)
              | None => None
              end
        end
      else if c <=? 31 then None
      else scanstring r (c :: acc)
  end.

(** Leading ASCII digits of [s], and what follows them. *)
Fixpoint span_digits (s : str) : str * str :=
  match s with
  | c :: s' =>
      if is_digit c then let (ds, r) := span_digits s' in (c :: ds, r)
      else ([], s)
  | [] => ([], [])
  end.

Definition digits_value (ds : str) : N :=
  fold_left (fun a c => a * 10 + (c - 48)) ds 0.

(** [sys.int_info.default_max_str_digits] *)
Definition int_max_str_digits : nat := 4300.

(** The integer part of a number (an optional minus sign, then a single
    zero or a non-zero digit followed by digits): sign, digits, rest. *)
Definition match_integer (s : str) : option (bool * str * str) :=
  let (neg, s1) :=
    match s with
    | c :: r => if c =? 45 then (true, r) else (false, s)
    | [] => (false, s)
    end in
  match s1 with
  | c :: r =>
      if c =? 48 then Some (neg, [c], r)
      else if is_digit c then
        let (ds, r') := span_digits r in Some (neg, c :: ds, r')
      else None
  | [] => None
  end.

(** The fraction (a full stop and at least one digit), when there is one. *)
Definition match_frac (s : str) : str * str :=
  match s with
  | c :: r =>
      if c =? 46 then
        match span_digits r with
        | ([], _) => ([], s)
        | (ds, r') => (ds, r')
        end
      else ([], s)
  | [] => ([], s)
  end.

(** The exponent (e or E, an optional sign, at least one digit), when
    there is one. *)
Definition match_exp (s : str) : option Z * str :=
  match s with
  | c :: r =>
      if (c =? 101) || (c =? 69) then
        let (eneg, r1) :=
          match r with
          | sg :: r' =>
              if sg =? 45 then (true, r')
              else if sg =? 43 then (false, r')
              else (false, r)
          | [] => (false, r)
          end in
        match span_digits r1 with
        | ([], _) => (None, s)
        | (ds, r2) =>
            let v := Z.of_N (digits_value ds) in
            (Some (if eneg then Z.opp v else v), r2)
        end
      else (None, s)
  | [] => (None, s)
  end.

(** [NUMBER_RE] followed by [int(...)] or [float(...)].  [None] when the
    text does not start with a number. *)
Definition match_number (s : str) : option (Scan JSON) :=
  match match_integer s with
  | None => None
  | Some (neg, ids, r) =>
      let (fds, r1) := match_frac r in
      let (ex, r2) := match_exp r1 in
      match fds, ex with
      | [], None =>
          if Nat.ltb int_max_str_digits (List.length ids) then Some Fail
          else
            let v := Z.of_N (digits_value ids) in
            Some (Done (JInt (if neg then Z.opp v else v)) r2)
      | _, _ =>
          let e := match ex with Some e => e | None => 0%Z end in
          Some (Done (JFloat (FDec neg (digits_value (ids ++ fds))
                                   (e - Z.of_nat (List.length fds))%Z)) r2)
      end
  end.

(** [_scan_once], [JSONArray] and [JSONObject].  [array_items] starts at a
    value; [object_items] starts just after the quotation mark that opens
    a key. *)
Fixpoint scan_once (fuel : nat) (s : str) {struct fuel} : Scan JSON :=
  match fuel with
  | O => NoFuel
  | S fuel' =>
      match s with
      | [] => Fail
      | c :: r =>
          if c =? 34 then
            match scanstring r [] with
            | Some (v, r') => Done (JStr v) r'
            | None => Fail
            end
          else if c =? 123 then
            let r0 := skip_ws r in
            match r0 with
            | c0 :: r1 =>
                if c0 =? 125 then Done (JDict []) r1
                else if c0 =? 34 then object_items fuel' [] r1
                else Fail
            | [] => Fail
            end
          else if c =? 91 then
            let r0 := skip_ws r in
            match r0 with
            | c0 :: r1 =>
                if c0 =? 93 then Done (JList []) r1
                else array_items fuel' [] r0
            | [] => Fail
            end
          else if startswith s (py "null") then Done JNull (skipn 4 s)
          else if startswith s (py "true") then Done (JBool true) (skipn 4 s)
          else if startswith s (py "false") then Done (JBool false) (skipn 5 s)
          else
            match match_number s with
            | Some res => res
            | None =>
                if startswith s (py "NaN") then Done (JFloat FNaN) (skipn 3 s)
                else if startswith s (py "Infinity")
                     then Done (JFloat (FInf false)) (skipn 8 s)
                else if startswith s (py "-Infinity")
                     then Done (JFloat (FInf true)) (skipn 9 s)
                else Fail
            end
      end
  end

with array_items (fuel : nat) (acc : list JSON) (s : str) {struct fuel} : Scan JSON :=
  match fuel with
  | O => NoFuel
  | S fuel' =>
      match scan_once fuel' s with
      | Done v r =>
          match skip_ws r with
          | c :: r1 =>
              if c =? 93 then Done (JList (acc ++ [v])) r1
              else if c =? 44 then array_items fuel' (acc ++ [v]) (skip_ws r1)
              else Fail
          | [] => Fail
          end
      | Fail => Fail
      | NoFuel => NoFuel
      end
  end

with object_items (fuel : nat) (acc : dict) (s : str) {struct fuel} : Scan JSON :=
  match fuel with
  | O => NoFuel
  | S fuel' =>
      match scanstring s [] with
      | None => Fail
      | Some (key, r) =>
          match skip_ws r with
          | c :: r1 =>
              if c =? 58 then
                match scan_once fuel' (skip_ws r1) with
                | Done v r2 =>
                    match skip_ws r2 with
                    | c2 :: r3 =>
                        if c2 =? 125 then Done (JDict (dict_set acc key v)) r3
                        else if c2 =? 44 then
                          match skip_ws r3 with
                          | c3 :: r4 =>
                              if c3 =? 34
                              then object_items fuel' (dict_set acc key v) r4
                              else Fail
                          | [] => Fail
                          end
                        else Fail
                    | [] => Fail
                    end
                | Fail => Fail
                | NoFuel => NoFuel
                end
              else Fail
          | [] => Fail
          end
      end
  end.

(** Fuel that [scan_once] never uses up on [s]. *)
Definition fuel_for (s : str) : nat := S (2 * List.length s).

(** [json.loads(s)] for a [str]; [None] stands for a raised exception. *)
Definition loads (s : str) : option JSON :=
  if startswith s [65279] then None
  else
    match scan_once (fuel_for s) (skip_ws s) with
    | Done v r => match skip_ws r with [] => Some v | _ => None end
    | _ => None
    end.

End Json.

Import Json.

(* ================================================================= *)
(** ** Exceptions *)

Module Exc.

(** Result of code that may raise an exception of type [E]. *)
Inductive Res (E A : Type) : Type :=
| Ok (a : A)
| Raise (e : E).
Arguments Ok {E A} a.
Arguments Raise {E A} e.

Definition bind {E A B : Type} (m : Res E A) (k : A -> Res E B) : Res E B :=
  match m with
  | Ok a => k a
  | Raise e => Raise e
  end.

(** Exceptions raised and caught inside [parse_action]; their messages only
    reach the log and are not modelled. *)
Inductive ExcClass : Type :=
| AttributeError
| ValueError
| KeyError
| ValidationError.

(** An exception that travels to the request handler: its class name,
    [str(e)], and whether it is an instance of [Exception].  The classes
    [KeyboardInterrupt], [SystemExit], [GeneratorExit] and
    [asyncio.CancelledError] derive from [BaseException] only. *)
Record PyExc : Type := mkBaseExc {
  exc_class : str;
  exc_str : str;
  exc_is_Exception : bool
}.

(** An instance of a class that derives from [Exception]. *)
Definition mkExc (name message : str) : PyExc := mkBaseExc name message true.

End Exc.

Import Exc.

Declare Scope res_scope.
Delimit Scope res_scope with res.
Notation "x <- m ;; k" := (bind m (fun x => k))
  (at level 61, m at next level, right associativity) : res_scope.
Notation "' p <- m ;; k" := (bind m (fun p => k))
  (at level 61, p pattern, m at next level, right associativity) : res_scope.
Local Open Scope res_scope.

(* ================================================================= *)
(** ** What the model takes from the interpreter and from pydantic *)

(** Three behaviours are fixed outside the repository and outside what is
    tabulated here: the Unicode database behind [str.isprintable] for code
    points above U+007F, the decimal rendering of a binary64 number, and the
    inputs pydantic accepts for a [float] field. *)
Class PyRuntime : Type := {
  (** [chr(c).isprintable()] for [c >= 128] *)
  isprintable_nonascii : N -> bool;
  (** [repr(x)] for the [float] [x] denoted by a literal *)
  float_repr : FloatLit -> str;
  (** pydantic's validation of a value other than [None] against [float]:
      the accepted number, or [None] for a validation error *)
  float_validate : JSON -> option FloatLit
}.

(* ================================================================= *)
(** ** [repr] and [str] of Python values *)

Module Repr.
Section WithRuntime.
Context {rt : PyRuntime}.

Definition hex_digit (d : N) : N := if d <? 10 then 48 + d else 87 + d.

(** The [width] low hexadecimal digits of [n], lower case. *)
Fixpoint hex (width : nat) (n : N) : str :=
  match width with
  | O => []
  | S w => hex w (n / 16) ++ [hex_digit (n mod 16)]
  end.

Definition isprintable (c : N) : bool :=
  if c <? 128 then (32 <=? c) && (c <? 127) else isprintable_nonascii c.

(** One character of [repr(s)], inside quotes [quote]. *)
Definition repr_char (quote c : N) : str :=
  if (c =? quote) || (c =? 92) then [92; c]
  else if c =? 9 then py "\t"
  else if c =? 10 then py "\n"
  else if c =? 13 then py "\r"
  else if (c <? 32) || (c =? 127) then py "\x" ++ hex 2 c
  else if c <? 127 then [c]
  else if isprintable c then [c]
  else if c <=? 255 then py "\x" ++ hex 2 c
  else if c <=? 65535 then py "\u" ++ hex 4 c
  else py "\U" ++ hex 8 c.

Definition has_char (c : N) (s : str) : bool := existsb (N.eqb c) s.

(** [repr(s)] for a [str]: single quotes, unless the text has a single
    quote and no double quote. *)
Definition repr_str (s : str) : str :=
  let quote := if has_char 39 s && negb (has_char 34 s) then 34 else 39 in
  quote :: List.flat_map (repr_char quote) s ++ [quote].

(** [repr(v)] for a value made by [json.loads]. *)
Fixpoint py_repr (v : JSON) : str :=
  match v with
  | JNull => py "None"
  | JBool true => py "True"
  | JBool false => py "False"
  | JInt z => of_int z
  | JFloat f => float_repr f
  | JStr s => repr_str s
  | JList l => py "[" ++ join (py ", ") (List.map py_repr l) ++ py "]"
  | JDict d =>
      py "{" ++
      join (py ", ")
        (List.map (fun kv => repr_str (fst kv) ++ py ": " ++ py_repr (snd kv)) d)
      ++ py "}"
  end.

(** [str(v)], which is what an f-string field [{v}] inserts. *)
Definition py_str (v : JSON) : str :=
  match v with
  | JStr s => s
  | _ => py_repr v
  end.

End WithRuntime.
End Repr.

Import Repr.

(* ================================================================= *)
(** ** The pydantic models of [src/action_generator.py] *)

Module Models.

(** [class SelectorType(str, Enum)] *)
Inductive SelectorType : Type :=
| ATTRIBUTE_VALUE_SELECTOR
| TAG_CONTAINS_SELECTOR
| XPATH_SELECTOR.

Definition SelectorType_value (t : SelectorType) : str :=
  match t with
  | ATTRIBUTE_VALUE_SELECTOR => py "attributeValueSelector"
  | TAG_CONTAINS_SELECTOR => py "tagContainsSelector"
  | XPATH_SELECTOR => py "xpathSelector"
  end.

Definition SelectorType_name (t : SelectorType) : str :=
  match t with
  | ATTRIBUTE_VALUE_SELECTOR => py "ATTRIBUTE_VALUE_SELECTOR"
  | TAG_CONTAINS_SELECTOR => py "TAG_CONTAINS_SELECTOR"
  | XPATH_SELECTOR => py "XPATH_SELECTOR"
  end.

(** [class Selector(BaseModel)] *)
Record Selector : Type := mkSelector {
  sel_type : SelectorType;
  sel_attribute : option str;      (* str | None = None *)
  sel_value : str
}.

(** [class BaseAction(BaseModel)] *)
Record BaseAction : Type := mkBaseAction {
  base_type : str;
  base_selector : option Selector  (* Selector | None = None *)
}.

(** [class ClickAction(BaseAction)]: [selector: Selector] *)
Record ClickAction : Type := mkClickAction {
  click_type : str;
  click_selector : Selector
}.

(** [class NavigateAction(BaseAction)]: [url: str | None = None] *)
Record NavigateAction : Type := mkNavigateAction {
  nav_type : str;
  nav_selector : option Selector;
  nav_url : option str
}.

(** [class TypeAction(BaseAction)]: [text: str], [selector: Selector] *)
Record TypeAction : Type := mkTypeAction {
  type_type : str;
  type_selector : Selector;
  type_text : str
}.

(** [class SelectAction(BaseAction)]: [value: str], [selector: Selector] *)
Record SelectAction : Type := mkSelectAction {
  select_type : str;
  select_selector : Selector;
  select_value : str
}.

(** [class WaitAction(BaseAction)]: [time_seconds: float | None = None] *)
Record WaitAction : Type := mkWaitAction {
  wait_type : str;
  wait_selector : option Selector;
  wait_time_seconds : option FloatLit
}.

(** The object bound to [obj] in [parse_action]. *)
Inductive Action : Type :=
| ABase (a : BaseAction)
| AClick (a : ClickAction)
| ANavigate (a : NavigateAction)
| AType (a : TypeAction)
| ASelect (a : SelectAction)
| AWait (a : WaitAction).

(** [obj.selector]: [None] or a [Selector]. *)
Definition action_selector_of (o : Action) : option Selector :=
  match o with
  | ABase a => base_selector a
  | AClick a => Some (click_selector a)
  | ANavigate a => nav_selector a
  | AType a => Some (type_selector a)
  | ASelect a => Some (select_selector a)
  | AWait a => wait_selector a
  end.

(** *** Validation *)

(** A field annotated [SelectorType]: one of the three values. *)
Definition validate_SelectorType (v : JSON) : Res ExcClass SelectorType :=
  match v with
  | JStr s =>
      if Str.eqb s (SelectorType_value ATTRIBUTE_VALUE_SELECTOR)
      then Ok ATTRIBUTE_VALUE_SELECTOR
      else if Str.eqb s (SelectorType_value TAG_CONTAINS_SELECTOR)
      then Ok TAG_CONTAINS_SELECTOR
      else if Str.eqb s (SelectorType_value XPATH_SELECTOR)
      then Ok XPATH_SELECTOR
      else Raise ValidationError
  | _ => Raise ValidationError
  end.

(** A field annotated [str]. *)
Definition validate_str (v : JSON) : Res ExcClass str :=
  match v with
  | JStr s => Ok s
  | _ => Raise ValidationError
  end.

(** A field annotated [str | None]. *)
Definition validate_optional_str (v : JSON) : Res ExcClass (option str) :=
  match v with
  | JNull => Ok None
  | JStr s => Ok (Some s)
  | _ => Raise ValidationError
  end.

(** A required field: the keyword must be there. *)
Definition required (kwargs : dict) (name : str) : Res ExcClass JSON :=
  match dict_find kwargs name with
  | Some v => Ok v
  | None => Raise ValidationError
  end.

(** [Selector] called with the keywords of [kwargs]; keywords that are not
    fields are ignored. *)
Definition Selector_init (kwargs : dict) : Res ExcClass Selector :=
  t <- (v <- required kwargs (py "type") ;; validate_SelectorType v) ;;
  a <- validate_optional_str (dict_get kwargs (py "attribute") JNull) ;;
  x <- (v <- required kwargs (py "value") ;; validate_str v) ;;
  Ok (mkSelector t a x).

(** A field annotated [Selector], given [None] or an instance. *)
Definition validate_Selector (s : option Selector) : Res ExcClass Selector :=
  match s with
  | Some sel => Ok sel
  | None => Raise ValidationError
  end.

(** [BaseAction(type=..., selector=...)] *)
Definition BaseAction_init (type : str) (selector : option Selector)
  : Res ExcClass BaseAction :=
  Ok (mkBaseAction type selector).

(** [ClickAction(type=..., selector=...)] *)
Definition ClickAction_init (type : str) (selector : option Selector)
  : Res ExcClass ClickAction :=
  sel <- validate_Selector selector ;;
  Ok (mkClickAction type sel).

(** [NavigateAction(type=..., url=...)] *)
Definition NavigateAction_init (type : str) (url : JSON)
  : Res ExcClass NavigateAction :=
  u <- validate_optional_str url ;;
  Ok (mkNavigateAction type None u).

(** [TypeAction(type=..., text=..., selector=...)] *)
Definition TypeAction_init (type : str) (text : JSON) (selector : option Selector)
  : Res ExcClass TypeAction :=
  sel <- validate_Selector selector ;;
  t <- validate_str text ;;
  Ok (mkTypeAction type sel t).

(** [SelectAction(type=..., value=..., selector=...)] *)
Definition SelectAction_init (type : str) (value : JSON) (selector : option Selector)
  : Res ExcClass SelectAction :=
  sel <- validate_Selector selector ;;
  v <- validate_str value ;;
  Ok (mkSelectAction type sel v).

(** [WaitAction(type=..., time_seconds=...)] *)
Definition WaitAction_init {rt : PyRuntime} (type : str) (time_seconds : JSON)
  : Res ExcClass WaitAction :=
  match time_seconds with
  | JNull => Ok (mkWaitAction type None None)
  | v =>
      match float_validate v with
      | Some f => Ok (mkWaitAction type None (Some f))
      | None => Raise ValidationError
      end
  end.

(** *** Rendering: [BaseModel.__repr__] and [BaseModel.__str__] *)

Section Rendering.
Context {rt : PyRuntime}.

(** [repr] of an enum member. *)
Definition SelectorType_repr (t : SelectorType) : str :=
  py "<SelectorType." ++ SelectorType_name t ++ py ": "
  ++ repr_str (SelectorType_value t) ++ py ">".

Definition repr_optional_str (v : option str) : str :=
  match v with
  | Some s => repr_str s
  | None => py "None"
  end.

(** One [name=value] item of [__repr_args__]. *)
Definition field (name : string) (value : str) : str :=
  py name ++ py "=" ++ value.

(** [repr(selector)] *)
Definition Selector_repr (s : Selector) : str :=
  py "Selector(" ++
  join (py ", ")
    [ field "type" (SelectorType_repr (sel_type s));
      field "attribute" (repr_optional_str (sel_attribute s));
      field "value" (repr_str (sel_value s)) ]
  ++ py ")".

Definition repr_optional_Selector (v : option Selector) : str :=
  match v with
  | Some s => Selector_repr s
  | None => py "None"
  end.

Definition repr_optional_float (v : option FloatLit) : str :=
  match v with
  | Some f => float_repr f
  | None => py "None"
  end.

(** [str(obj)]: the fields in declaration order, base class first,
    joined by one space. *)
Definition Action_str (o : Action) : str :=
  match o with
  | ABase a =>
      join (py " ")
        [ field "type" (repr_str (base_type a));
          field "selector" (repr_optional_Selector (base_selector a)) ]
  | AClick a =>
      join (py " ")
        [ field "type" (repr_str (click_type a));
          field "selector" (Selector_repr (click_selector a)) ]
  | ANavigate a =>
      join (py " ")
        [ field "type" (repr_str (nav_type a));
          field "selector" (repr_optional_Selector (nav_selector a));
          field "url" (repr_optional_str (nav_url a)) ]
  | AType a =>
      join (py " ")
        [ field "type" (repr_str (type_type a));
          field "selector" (Selector_repr (type_selector a));
          field "text" (repr_str (type_text a)) ]
  | ASelect a =>
      join (py " ")
        [ field "type" (repr_str (select_type a));
          field "selector" (Selector_repr (select_selector a));
          field "value" (repr_str (select_value a)) ]
  | AWait a =>
      join (py " ")
        [ field "type" (repr_str (wait_type a));
          field "selector" (repr_optional_Selector (wait_selector a));
          field "time_seconds" (repr_optional_float (wait_time_seconds a)) ]
  end.

End Rendering.

End Models.

Import Models.

(* ================================================================= *)
(** ** [string.Template] *)

Module Template.
Section WithRuntime.
Context {rt : PyRuntime}.

(** [[_a-z]] and [[_a-z0-9]] under [re.IGNORECASE], ASCII only. *)
Definition id_start (c : N) : bool :=
  (c =? 95) || ((97 <=? c) && (c <=? 122)) || ((65 <=? c) && (c <=? 90)).

Definition id_char (c : N) : bool := id_start c || is_digit c.

(** Line boundaries of [str.splitlines]. *)
Definition is_linebreak (c : N) : bool :=
  ((10 <=? c) && (c <=? 13)) || ((28 <=? c) && (c <=? 30))
  || (c =? 133) || (c =? 8232) || (c =? 8233).

(** State of [line_col]: lines completed, length of the last completed
    line, length of the line being read, whether the last character was a
    carriage return. *)
Definition line_step (st : N * N * N * bool) (c : N) : N * N * N * bool :=
  let '(n, last, cur, cr) := st in
  if cr && (c =? 10) then (n, last + 1, cur, false)
  else if is_linebreak c then (n + 1, cur + 1, 0, c =? 13)
  else (n, last, cur + 1, false).

(** [lineno] and [colno] of [Template._invalid] for the text before the
    offending position. *)
Definition line_col (prefix : str) : N * N :=
  let '(n, last, cur, _) := fold_left line_step prefix (0, 0, 0, false) in
  if 0 <? cur then (n + 1, cur)
  else if n =? 0 then (1, 1)
  else (n, last).

Inductive State : Type :=
| Text                                 (* outside a placeholder *)
| Dollar (at_ : nat)                   (* just after a dollar sign *)
| Named (name : str)                   (* inside $name *)
| Braced (at_ : nat) (name : str).     (* inside ${name} *)

Section Substitute.
Variable template : str.
Variable mapping : list (str * str).

(** [str(mapping[name])] *)
Fixpoint lookup_in (m : list (str * str)) (name : str) : Res PyExc str :=
  match m with
  | [] => Raise (mkExc (py "KeyError") (repr_str name))
  | (k, v) :: m' => if Str.eqb k name then Ok v else lookup_in m' name
  end.

Definition lookup (name : str) : Res PyExc str := lookup_in mapping name.

(** [self._invalid(mo)], [at_] being [mo.start('invalid')]. *)
Definition invalid (at_ : nat) : PyExc :=
  let (lineno, colno) := line_col (firstn at_ template) in
  mkExc (py "ValueError")
    (py "Invalid placeholder in string: line " ++ digits lineno
     ++ py ", col " ++ digits colno).

(** [self.pattern.sub(convert, self.template)], one character at a time:
    [s] is the text left and [i] its offset; the result is the
    substituted text for [s]. *)
Fixpoint scan (s : str) (i : nat) (st : State) : Res PyExc str :=
  match s with
  | [] =>
      match st with
      | Text => Ok []
      | Named name => lookup name
      | Dollar at_ | Braced at_ _ => Raise (invalid at_)
      end
  | c :: r =>
      match st with
      | Text =>
          if c =? 36 then scan r (S i) (Dollar (S i))
          else rest <- scan r (S i) Text ;; Ok (c :: rest)
      | Dollar at_ =>
          if c =? 36 then rest <- scan r (S i) Text ;; Ok (36 :: rest)
          else if id_start c then scan r (S i) (Named [c])
          else if c =? 123 then scan r (S i) (Braced at_ [])
          else Raise (invalid at_)
      | Named name =>
          if id_char c then scan r (S i) (Named (name ++ [c]))
          else
            v <- lookup name ;;
            rest <-
              (if c =? 36 then scan r (S i) (Dollar (S i))
               else rest <- scan r (S i) Text ;; Ok (c :: rest)) ;;
            Ok (v ++ rest)
      | Braced at_ name =>
          let continues :=
            match name with [] => id_start c | _ => id_char c end in
          if continues then scan r (S i) (Braced at_ (name ++ [c]))
          else
            match name with
            | [] => Raise (invalid at_)
            | _ =>
                if c =? 125
                then v <- lookup name ;;
                     rest <- scan r (S i) Text ;; Ok (v ++ rest)
                else Raise (invalid at_)
            end
      end
  end.

(** [Template(template).substitute] called with the keywords of
    [mapping], the values already converted with [str]. *)
Definition substitute : Res PyExc str := scan template 0 Text.

End Substitute.

End WithRuntime.
End Template.

(* ================================================================= *)
(** ** [src/prompts.py] *)

Module Prompts.

(** The text of a template, given line by line. *)
Definition text (lines : list str) : str := join [10] lines.

(** [WEB_ACTION_GENERATOR_PROMPT] *)
Definition WEB_ACTION_GENERATOR_PROMPT : str :=
  text
  [ py "";
    py "You are an ACTION GENERATOR for a web automation system.";
    py "Your ONLY responsibility is to generate the NEXT SINGLE ACTION to take on the webpage.";
    py "You do NOT explain, reason, describe, or summarize.";
    py "You do NOT perform automation yourself.";
    py "You ONLY output a valid JSON action object.";
    py "";
    py "Task:";
    py "$task";
    py "";
    py "Current URL:";
    py "$url";
    py "";
    py "Step:";
    py "$step_index";
    py "";
    py "Previous Actions:";
    py "$previous_actions";
    py "";
    py "Current Page HTML (optimized):";
    py "$optimized_html";
    py "";
    py "Based on the task, the current page state, and previous actions, determine the SINGLE NEXT ACTION to take.";
    py "";
    py "Available Actions";
    py "You may return ONLY ONE of the following actions:";
    py "";
    py "ClickAction";
    py "NavigateAction";
    py "TypeAction";
    py "SelectAction";
    py "WaitAction";
    py "";
    py "Available Selectors";
    py "xpathSelector(value)";
    py "";
    py "Output Rules";
    py "- Output MUST be valid JSON";
    py "- Return ONLY ONE action";
    py "- Do NOT include explanations, comments, reasoning, or extra text";
    py "- Use XPath selectors ONLY";
    py "- The JSON output MUST strictly match ONE of the schemas below";
    py "- Do NOT hallucinate elements that do not exist in the provided HTML";
    py "- Prefer deterministic, visible, and interactable elements";
    py "- If no safe or valid action is possible, return a WaitAction";
    py "";
    py "Action JSON Schemas";
    py "";
    py "Click";
    py "{";
    pyq "  `action`: `ClickAction`,";
    pyq "  `selector`: {";
    pyq "    `type`: `xpathSelector`,";
    pyq "    `value`: `XPATH_EXPRESSION`";
    py "  }";
    py "}";
    py "";
    py "Navigate";
    py "{";
    pyq "  `action`: `NavigateAction`,";
    pyq "  `url`: `TARGET_URL`";
    py "}";
    py "";
    py "Type";
    py "{";
    pyq "  `action`: `TypeAction`,";
    pyq "  `text`: `TEXT_TO_TYPE`,";
    pyq "  `selector`: {";
    pyq "    `type`: `xpathSelector`,";
    pyq "    `value`: `XPATH_EXPRESSION`";
    py "  }";
    py "}";
    py "";
    py "Select";
    py "{";
    pyq "  `action`: `SelectAction`,";
    pyq "  `value`: `OPTION_VALUE`,";
    pyq "  `selector`: {";
    pyq "    `type`: `xpathSelector`,";
    pyq "    `value`: `XPATH_EXPRESSION`";
    py "  }";
    py "}";
    py "";
    py "Wait";
    py "{";
    pyq "  `action`: `WaitAction`,";
    pyq "  `time_seconds`: NUMBER";
    py "}";
    py "";
    py "Example Outputs";
    py "";
    py "Example 1: Typing into a login form";
    py "{";
    pyq "  `action`: `TypeAction`,";
    pyq "  `text`: `john.doe@example.com`,";
    pyq "  `selector`: {";
    pyq "    `type`: `xpathSelector`,";
    pyq "    `value`: `//input[@type='email' or @name='email']`";
    py "  }";
    py "}";
    py "";
    py "Example 2: Clicking a button with multiple matching elements";
    py "{";
    pyq "  `action`: `ClickAction`,";
    pyq "  `selector`: {";
    pyq "    `type`: `xpathSelector`,";
    pyq "    `value`: `(//button[contains(normalize-space(text()), 'Continue')])[1]`";
    py "  }";
    py "}";
    py "";
    py "Example 3: Selecting an option from a dropdown";
    py "{";
    pyq "  `action`: `SelectAction`,";
    pyq "  `value`: `United States`,";
    pyq "  `selector`: {";
    pyq "    `type`: `xpathSelector`,";
    pyq "    `value`: `//select[@name='country']`";
    py "  }";
    py "}";
    py "";
    py "Example 4: Navigating to a new page explicitly";
    py "{";
    pyq "  `action`: `NavigateAction`,";
    pyq "  `url`: `https://example.com/dashboard`";
    py "}";
    py "";
    py "Example 5: Waiting due to loading or missing interactable elements";
    py "{";
    pyq "  `action`: `WaitAction`,";
    pyq "  `time_seconds`: 3";
    py "}";
    py "";
    py "Example 6: Clicking a deeply nested element with attributes";
    py "{";
    pyq "  `action`: `ClickAction`,";
    pyq "  `selector`: {";
    pyq "    `type`: `xpathSelector`,";
    pyq "    `value`: `//div[@role='dialog']//button[@aria-label='Close']`";
    py "  }";
    py "}";
    py "";
    py "Example 7: Typing into a dynamically generated input field";
    py "{";
    pyq "  `action`: `TypeAction`,";
    pyq "  `text`: `password123!`,";
    pyq "  `selector`: {";
    pyq "    `type`: `xpathSelector`,";
    pyq "    `value`: `//input[contains(@id, 'password')]`";
    py "  }";
    py "}";
    py "" ].

(** [HTML_OPTIMIZER_PROMPT] *)
Definition HTML_OPTIMIZER_PROMPT : str :=
  text
  [ py "";
    py "You are an HTML OPTIMIZER for a web automation system.";
    py "Your ONLY responsibility is to transform raw HTML into a CLEAN, REDUCED, and ACTION-RELEVANT HTML representation.";
    py "You do NOT generate actions.";
    py "You do NOT explain your reasoning.";
    py "You ONLY output optimized HTML.";
    py "";
    py "Input URL:";
    py "$url";
    py "";
    py "Raw HTML:";
    py "$raw_html";
    py "";
    py "Optimization Goals";
    py "- Preserve elements that are potentially interactable or useful for automation";
    py "- Remove noise, duplication, and irrelevant content";
    py "- Keep the DOM structure understandable and minimal";
    py "- Ensure the optimized HTML can be reliably used to generate XPath selectors";
    py "";
    py "Elements to PRESERVE";
    py "- Interactive elements:";
    py "  - button";
    py "  - a (links)";
    py "  - input";
    py "  - textarea";
    py "  - select";
    py "  - option";
    py "- Elements with attributes:";
    py "  - id";
    py "  - name";
    py "  - role";
    py "  - aria-*";
    py "  - type";
    py "  - value";
    py "  - placeholder";
    py "  - href";
    py "  - data-*";
    py "- Elements with visible or actionable text";
    py "- Elements that act as containers for interactable elements (e.g., form, dialog, nav)";
    py "";
    py "Elements to REMOVE";
    py "- script";
    py "- style";
    py "- noscript";
    py "- svg";
    py "- canvas";
    py "- iframe (unless clearly interactive)";
    py "- meta, link, head";
    py "- comments";
    py "- tracking or analytics markup";
    py "- invisible elements (display:none, hidden, aria-hidden=true)";
    py "- excessive nesting with no semantic or functional value";
    py "";
    py "Attribute Rules";
    py "- Keep only attributes useful for XPath generation or element identification";
    py "- Remove inline styles unless they affect visibility";
    py "- Normalize whitespace in text nodes";
    py "- Truncate very long text content if not relevant to interaction";
    py "";
    py "Structural Rules";
    py "- Preserve parent-child relationships where they help identify elements";
    py "- Flatten deeply nested structures when safe";
    py "- Remove duplicate sibling elements if they are identical";
    py "- Keep forms and dialogs intact";
    py "";
    py "Output Rules";
    py "- Output MUST be valid HTML";
    py "- Output ONLY the optimized HTML";
    py "- Do NOT include explanations, comments, markdown, or extra text";
    py "- Do NOT hallucinate elements not present in the raw HTML";
    py "- Do NOT add new attributes or modify values";
    py "- Maintain the original order of elements as much as possible";
    py "";
    py "Example";
    py "";
    py "Raw HTML:";
    py "<div>";
    pyq "  <script>alert(`hi`)</script>";
    pyq "  <form id=`loginForm`>";
    py "    <label>Email</label>";
    pyq "    <input type=`email` name=`email` style=`color:red`>";
    pyq "    <input type=`password` name=`password`>";
    pyq "    <button onclick=`submit()`>Login</button>";
    py "  </form>";
    py "</div>";
    py "";
    py "Optimized HTML:";
    pyq "<form id=`loginForm`>";
    py "  <label>Email</label>";
    pyq "  <input type=`email` name=`email`>";
    pyq "  <input type=`password` name=`password`>";
    py "  <button>Login</button>";
    py "</form>";
    py "" ].

End Prompts.

Import Prompts.

(* ================================================================= *)
(** ** [src/config.py] and [src/llm_client.py] *)

Module LLM.

(** [class Settings(BaseSettings)], the fields the two components read. *)
Record Settings : Type := mkSettings {
  llm_provider : str;
  html_optimization_model : str;
  action_generation_model : str;
  html_optimization_temperature : FloatLit;
  action_generation_temperature : FloatLit;
  html_optimization_max_tokens : Z;
  action_generation_max_tokens : Z
}.

(** A configured chat model: the [content] of the reply to one human
    message, or the exception the provider call raises. *)
Definition ChatModel : Type := str -> Res PyExc str.

(** [class LLMClient] *)
Record LLMClient : Type := mkLLMClient {
  client_settings : Settings;
  html_optimization_llm : ChatModel;
  action_generation_llm : ChatModel
}.

(** [LLMClient.generate]; [model], [temperature] and [max_tokens] are taken
    for compatibility and not used. *)
Definition generate (self : LLMClient) (prompt : str) (model : str)
    (temperature : FloatLit) (max_tokens : Z)
    (use_html_optimization_llm : bool) : Res PyExc str :=
  let llm :=
    if use_html_optimization_llm
    then html_optimization_llm self
    else action_generation_llm self in
  llm prompt.

End LLM.

Import LLM.

(* ================================================================= *)
(** ** [src/html_optimizer.py] *)

Module HTMLOptimizer.
Section WithRuntime.
Context {rt : PyRuntime}.

(** [class HTMLOptimizer] *)
Record t : Type := mk {
  settings : Settings;
  llm_client : LLMClient
}.

(** [HTMLOptimizer._build_optimization_prompt] *)
Definition _build_optimization_prompt (self : t) (html url : str)
    (task_context : option str) : Res PyExc str :=
  let raw_html :=
    match task_context with
    | Some (c :: ctx) =>
        py "Task Context:" ++ [10] ++ (c :: ctx) ++ [10; 10] ++ html
    | _ => html
    end in
  Template.substitute HTML_OPTIMIZER_PROMPT
    [ (py "url", url); (py "raw_html", raw_html) ].

(** [HTMLOptimizer.optimize] *)
Definition optimize (self : t) (html url : str) (task_context : option str)
  : Res PyExc str :=
  prompt <- _build_optimization_prompt self html url task_context ;;
  optimized_html <-
    generate (llm_client self) prompt
      (html_optimization_model (settings self))
      (html_optimization_temperature (settings self))
      (html_optimization_max_tokens (settings self))
      true ;;
  Ok (strip optimized_html).

End WithRuntime.
End HTMLOptimizer.

(* ================================================================= *)
(** ** [src/action_generator.py] *)

Module ActionGenerator.
Section WithRuntime.
Context {rt : PyRuntime}.

(** [class ActionGenerator] *)
Record t : Type := mk {
  settings : Settings;
  llm_client : LLMClient
}.

(** [data.get(key, default)] on whatever [json.loads] returned: only a
    [dict] has the method. *)
Definition get (data : JSON) (key : str) (default : JSON) : Res ExcClass JSON :=
  match data with
  | JDict d => Ok (dict_get d key default)
  | _ => Raise AttributeError
  end.

(** Line 40: [data.get('type') or data.get('action')]. *)
Definition read_discriminant (data : JSON) : Res ExcClass JSON :=
  type_ <- get data (py "type") JNull ;;
  if truthy type_ then Ok type_ else get data (py "action") JNull.

(** Lines 44-45: the suffix is appended unless it is already there. *)
Definition normalize (action_type : str) : str :=
  if negb (endswith action_type (py "Action"))
  then action_type ++ py "Action"
  else action_type.

(** Lines 40-45: the discriminant, checked and normalised.  Only a [str]
    has [endswith]. *)
Definition read_action_type (data : JSON) : Res ExcClass str :=
  action_type <- read_discriminant data ;;
  if negb (truthy action_type) then Raise ValueError
  else
    match action_type with
    | JStr s => Ok (normalize s)
    | _ => Raise AttributeError
    end.

(** Lines 47-48: the selector. *)
Definition read_selector (data : JSON) : Res ExcClass (option Selector) :=
  selector_data <- get data (py "selector") JNull ;;
  match selector_data with
  | JDict kwargs => sel <- Selector_init kwargs ;; Ok (Some sel)
  | _ => Ok None
  end.

(** Lines 50-61: the dispatch on the discriminant. *)
Definition construct (data : JSON) (action_type : str)
    (selector : option Selector) : Res ExcClass Action :=
  if Str.eqb action_type (py "ClickAction") then
    obj <- ClickAction_init action_type selector ;; Ok (AClick obj)
  else if Str.eqb action_type (py "NavigateAction") then
    url <- get data (py "url") JNull ;;
    obj <- NavigateAction_init action_type url ;; Ok (ANavigate obj)
  else if Str.eqb action_type (py "TypeAction") then
    text <- get data (py "text") (JStr []) ;;
    obj <- TypeAction_init action_type text selector ;; Ok (AType obj)
  else if Str.eqb action_type (py "SelectAction") then
    value <- get data (py "value") (JStr []) ;;
    obj <- SelectAction_init action_type value selector ;; Ok (ASelect obj)
  else if Str.eqb action_type (py "WaitAction") then
    time_seconds <- get data (py "time_seconds") JNull ;;
    obj <- WaitAction_init action_type time_seconds ;; Ok (AWait obj)
  else
    obj <- BaseAction_init action_type selector ;; Ok (ABase obj).

(** Lines 40-61: the object bound to [obj]. *)
Definition build_action (data : JSON) : Res ExcClass Action :=
  action_type <- read_action_type data ;;
  selector <- read_selector data ;;
  construct data action_type selector.

(** Lines 40-63: the body of the second [try]. *)
Definition parse_action_try (data : JSON) : Res ExcClass str :=
  obj <- build_action data ;;
  Ok (Action_str obj).

(** [ActionGenerator.parse_action].  Both handlers are [except Exception];
    the warning the second one logs is not modelled. *)
Definition parse_action (action_text : str) : str :=
  match action_text with
  | [] => action_text
  | _ =>
      match Json.loads action_text with
      | None => strip action_text
      | Some data =>
          match parse_action_try data with
          | Ok rendered => rendered
          | Raise _ => strip action_text
          end
      end
  end.

(** One turn of the loop of [_format_history]: [i] counts from 1,
    [formatted] is the list being appended to. *)
Definition format_entry (st : N * list str) (entry : dict) : N * list str :=
  let (i, formatted) := st in
  let action := dict_get entry (py "action") (JStr (py "unknown")) in
  let result := dict_get entry (py "result") (JStr []) in
  let formatted :=
    formatted ++ [py "Step " ++ digits i ++ py ": " ++ py_str action] in
  let formatted :=
    if truthy result
    then formatted ++ [py "  Result: " ++ py_str result]
    else formatted in
  (i + 1, formatted).

(** [ActionGenerator._format_history] *)
Definition _format_history (history : list dict) : str :=
  match history with
  | [] => []
  | _ => join [10] (snd (fold_left format_entry history (1, [])))
  end.

(** [ActionGenerator._build_action_prompt] *)
Definition _build_action_prompt (self : t) (prompt optimized_html : str)
    (step_index : Z) (history : list dict) (url : str) : Res PyExc str :=
  let history_text := _format_history history in
  Template.substitute WEB_ACTION_GENERATOR_PROMPT
    [ (py "task", prompt);
      (py "url", url);
      (py "step_index", of_int step_index);
      (py "previous_actions",
        match history_text with
        | [] => py "No previous actions"
        | _ => history_text
        end);
      (py "optimized_html", optimized_html) ].

(** [ActionGenerator.generate_action] *)
Definition generate_action (self : t) (prompt optimized_html : str)
    (step_index : Z) (history : list dict) (url : str) : Res PyExc str :=
  action_prompt <-
    _build_action_prompt self prompt optimized_html step_index history url ;;
  action <-
    generate (llm_client self) action_prompt
      (action_generation_model (settings self))
      (action_generation_temperature (settings self))
      (action_generation_max_tokens (settings self))
      false ;;
  Ok (strip action).

End WithRuntime.
End ActionGenerator.

(* ================================================================= *)
(** ** [main.py] *)

Module Main.
Section WithRuntime.
Context {rt : PyRuntime}.

(** [class ActRequest(BaseModel)] *)
Record ActRequest : Type := mkActRequest {
  req_task_id : str;
  req_prompt : str;
  req_start_url : str;
  req_snapshot_html : str;
  req_step_index : Z;
  req_web_project_id : str;
  req_history : list dict
}.

(** [class ActResponse(BaseModel)] *)
Record ActResponse : Type := mkActResponse {
  action : str;
  task_id : str;
  step_index : Z
}.

(** How a call of the handler ends: the response model, sent with status
    200; the [HTTPException] the handler raised; or an exception that the
    handler did not catch, and that leaves it. *)
Inductive HTTPResult : Type :=
| Response200 (body : ActResponse)
| HTTPException (status_code : N) (detail : str)
| Uncaught (e : PyExc).

(** The [try] block of [act]. *)
Definition act_try (html_optimizer : HTMLOptimizer.t)
    (action_generator : ActionGenerator.t) (request : ActRequest)
  : Res PyExc ActResponse :=
  optimized_html <-
    HTMLOptimizer.optimize html_optimizer
      (req_snapshot_html request) (req_start_url request)
      (Some (req_prompt request)) ;;
  action <-
    ActionGenerator.generate_action action_generator
      (req_prompt request) optimized_html (req_step_index request)
      (req_history request) (req_start_url request) ;;
  let action := ActionGenerator.parse_action action in
  Ok (mkActResponse action (req_task_id request) (req_step_index request)).

(** [act], the handler of [POST /act], for a request that passed
    validation.  The handler is [except Exception]: an exception that is
    no instance of [Exception] is not caught. *)
Definition act (html_optimizer : HTMLOptimizer.t)
    (action_generator : ActionGenerator.t) (request : ActRequest)
  : HTTPResult :=
  match act_try html_optimizer action_generator request with
  | Ok response => Response200 response
  | Raise e =>
      if exc_is_Exception e
      then HTTPException 500 (py "Error processing action: " ++ exc_str e)
      else Uncaught e
  end.

End WithRuntime.
End Main.

(* ================================================================= *)
(** ** The specification's wording, for comparison with the code *)

Module Spec.

(** The discriminant as the specification words it: the value of [type]
    unless it is null (or the key is absent), else the value of
    [action]. *)
Definition first_non_null (d : dict) : JSON :=
  match dict_get d (py "type") JNull with
  | JNull => dict_get d (py "action") JNull
  | v => v
  end.

(** The shapes that declare [selector: Selector]. *)
Definition needs_selector (o : Action) : bool :=
  match o with
  | AClick _ | AType _ | ASelect _ => true
  | _ => false
  end.

(** The discriminants of those shapes. *)
Definition selector_shape (action_type : str) : bool :=
  Str.eqb action_type (py "ClickAction")
  || Str.eqb action_type (py "TypeAction")
  || Str.eqb action_type (py "SelectAction").

(** The lines of one entry of a request, whatever its values are: the
    action as [str] prints it ([unknown] when the key is absent), then the
    result line when the result is truthy. *)
Definition raw_entry_lines {rt : PyRuntime} (k : N) (entry : dict) : list str :=
  (py "Step " ++ digits k ++ py ": "
   ++ py_str (dict_get entry (py "action") (JStr (py "unknown")))) ::
  (if truthy (dict_get entry (py "result") (JStr []))
   then [py "  Result: " ++ py_str (dict_get entry (py "result") (JStr []))]
   else []).

(** The transcript of such a history whose first entry is step [k]. *)
Fixpoint raw_transcript {rt : PyRuntime} (k : N) (history : list dict) : list str :=
  match history with
  | [] => []
  | entry :: rest => raw_entry_lines k entry ++ raw_transcript (k + 1) rest
  end.

(** A history entry of the data model: an action and an optional result,
    both text. *)
Record HistoryEntry : Type := mkEntry {
  h_action : str;
  h_result : option str
}.

(** The entry as the request carries it. *)
Definition entry_dict (e : HistoryEntry) : dict :=
  (py "action", JStr (h_action e)) ::
  match h_result e with
  | Some r => [(py "result", JStr r)]
  | None => []
  end.

(** The lines of one entry: its step line, then its result line when the
    result is not empty. *)
Definition entry_lines (k : N) (e : HistoryEntry) : list str :=
  (py "Step " ++ digits k ++ py ": " ++ h_action e) ::
  match h_result e with
  | Some (c :: r) => [py "  Result: " ++ (c :: r)]
  | _ => []
  end.

(** The transcript of a history whose first entry is step [k]. *)
Fixpoint transcript (k : N) (history : list HistoryEntry) : list str :=
  match history with
  | [] => []
  | e :: rest => entry_lines k e ++ transcript (k + 1) rest
  end.

(** The lines of a text: [s.split(sep)] for the line feed as [sep]. *)
Fixpoint split_lines (s : str) : list str :=
  match s with
  | [] => [[]]
  | c :: r =>
      if c =? 10 then [] :: split_lines r
      else
        match split_lines r with
        | line :: rest => (c :: line) :: rest
        | [] => [[c]]
        end
  end.

(** A text without a line feed. *)
Definition no_line_feed (s : str) : bool := negb (existsb (N.eqb 10) s).

(** An entry whose action and result have no line feed. *)
Definition single_line (e : HistoryEntry) : bool :=
  no_line_feed (h_action e)
  && match h_result e with
     | Some r => no_line_feed r
     | None => true
     end.

(** The step lines alone. *)
Fixpoint step_lines (k : N) (history : list HistoryEntry) : list str :=
  match history with
  | [] => []
  | e :: rest =>
      (py "Step " ++ digits k ++ py ": " ++ h_action e) :: step_lines (k + 1) rest
  end.

End Spec.

(* ================================================================= *)
(** ** An interpreter to run the model on concrete replies *)

Module Example.

(** [str.isprintable] on U+0080..U+00FF; nothing above is claimed
    printable. *)
Definition latin1_printable (c : N) : bool :=
  (161 <=? c) && (c <=? 255) && negb (c =? 173).

(** [repr] of a float, exact for whole numbers below [10^16]. *)
Definition whole_repr (f : FloatLit) : str :=
  match f with
  | FNaN => py "nan"
  | FInf false => py "inf"
  | FInf true => py "-inf"
  | FDec neg m e =>
      (if neg then py "-" else []) ++ digits m ++
      (if Z.eqb e 0 then py ".0" else py "e" ++ of_int e)
  end.

(** A [float] field given a number. *)
Definition number_only (v : JSON) : option FloatLit :=
  match v with
  | JInt z => Some (FDec (Z.ltb z 0) (Z.abs_N z) 0)
  | JFloat f => Some f
  | _ => None
  end.

(** The runtime used for the concrete runs below; none of them renders a
    float or a character above U+007F. *)
Definition runtime : PyRuntime :=
  {| isprintable_nonascii := latin1_printable;
     float_repr := whole_repr;
     float_validate := number_only |}.

(** The two components of the end-to-end example: chat models that answer
    with a fixed reply, or fail with a fixed exception. *)
Definition settings : Settings :=
  {| llm_provider := py "openai";
     html_optimization_model := py "gpt-4o-mini";
     action_generation_model := py "gpt-4o";
     html_optimization_temperature := FDec false 1 (-1);
     action_generation_temperature := FDec false 3 (-1);
     html_optimization_max_tokens := 4000;
     action_generation_max_tokens := 500 |}.

Definition replying (reply : str) : ChatModel := fun _ => Ok reply.

Definition failing (message : str) : ChatModel :=
  fun _ => Raise (mkExc (py "Exception") message).

(** A chat model whose call is cancelled: [asyncio.CancelledError], which
    derives from [BaseException] only and prints as the empty string. *)
Definition cancelled : ChatModel :=
  fun _ => Raise (mkBaseExc (py "CancelledError") [] false).

Definition client (reduction generation : ChatModel) : LLMClient :=
  mkLLMClient settings reduction generation.

Definition html_optimizer (reduction : ChatModel) : HTMLOptimizer.t :=
  HTMLOptimizer.mk settings (client reduction (failing [])).

Definition action_generator (generation : ChatModel) : ActionGenerator.t :=
  ActionGenerator.mk settings (client (failing []) generation).

(** [sample_task_data] of the tests. *)
Definition request : Main.ActRequest :=
  Main.mkActRequest (py "task_123") (py "Click on the login button")
    (py "https://example.com")
    (py "<html><body><button id='login-btn'>Login</button></body></html>")
    0 (py "project_1") [].

End Example.

(* ================================================================= *)
(** ** [src/config.py], in full, and the construction of the components *)

Module Config.

(** [class Settings(BaseSettings)] with all its fields. *)
Record Settings : Type := mkSettings {
  llm_provider : str;
  openai_api_key : option str;
  anthropic_api_key : option str;
  google_api_key : option str;
  html_optimization_model : str;
  action_generation_model : str;
  html_optimization_temperature : FloatLit;
  action_generation_temperature : FloatLit;
  html_optimization_max_tokens : Z;
  action_generation_max_tokens : Z
}.

(** The defaults the class declares: what [Settings()] is when neither the
    environment nor the [.env] file sets a field. *)
Definition defaults : Settings :=
  {| llm_provider := py "openai";
     openai_api_key := None;
     anthropic_api_key := None;
     google_api_key := None;
     html_optimization_model := py "gpt-4o-mini";
     action_generation_model := py "gpt-4o";
     html_optimization_temperature := FDec false 1 (-1);
     action_generation_temperature := FDec false 3 (-1);
     html_optimization_max_tokens := 4000;
     action_generation_max_tokens := 500 |}.

(** The fields the two components read after construction. *)
Definition core (s : Settings) : LLM.Settings :=
  {| LLM.llm_provider := llm_provider s;
     LLM.html_optimization_model := html_optimization_model s;
     LLM.action_generation_model := action_generation_model s;
     LLM.html_optimization_temperature := html_optimization_temperature s;
     LLM.action_generation_temperature := action_generation_temperature s;
     LLM.html_optimization_max_tokens := html_optimization_max_tokens s;
     LLM.action_generation_max_tokens := action_generation_max_tokens s |}.

End Config.

Module Client.

(** The three chat model classes of LangChain: each takes the model name,
    the temperature, the token limit and the API key, and gives a chat
    model or raises. *)
Record Providers : Type := mkProviders {
  ChatOpenAI : str -> FloatLit -> Z -> str -> Res PyExc ChatModel;
  ChatAnthropic : str -> FloatLit -> Z -> str -> Res PyExc ChatModel;
  ChatGoogleGenerativeAI : str -> FloatLit -> Z -> str -> Res PyExc ChatModel
}.

(** [raise ValueError(message)] *)
Definition value_error {A : Type} (message : str) : Res PyExc A :=
  Raise (mkExc (py "ValueError") message).

(** [LLMClient._create_llm]; a key that is [None] or empty is missing. *)
Definition _create_llm (providers : Providers) (settings : Config.Settings)
    (model : str) (temperature : FloatLit) (max_tokens : Z)
  : Res PyExc ChatModel :=
  if Str.eqb (Config.llm_provider settings) (py "openai") then
    match Config.openai_api_key settings with
    | Some (c :: key) =>
        ChatOpenAI providers model temperature max_tokens (c :: key)
    | _ =>
        value_error (py "OpenAI API key is required when using OpenAI provider")
    end
  else if Str.eqb (Config.llm_provider settings) (py "anthropic") then
    match Config.anthropic_api_key settings with
    | Some (c :: key) =>
        ChatAnthropic providers model temperature max_tokens (c :: key)
    | _ =>
        value_error
          (py "Anthropic API key is required when using Anthropic provider")
    end
  else if Str.eqb (Config.llm_provider settings) (py "google") then
    match Config.google_api_key settings with
    | Some (c :: key) =>
        ChatGoogleGenerativeAI providers model temperature max_tokens (c :: key)
    | _ =>
        value_error (py "Google API key is required when using Google provider")
    end
  else
    value_error (py "Unsupported LLM provider: " ++ Config.llm_provider settings).

(** [LLMClient.__init__] *)
Definition LLMClient_init (providers : Providers) (settings : Config.Settings)
  : Res PyExc LLMClient :=
  html_optimization_llm <-
    _create_llm providers settings
      (Config.html_optimization_model settings)
      (Config.html_optimization_temperature settings)
      (Config.html_optimization_max_tokens settings) ;;
  action_generation_llm <-
    _create_llm providers settings
      (Config.action_generation_model settings)
      (Config.action_generation_temperature settings)
      (Config.action_generation_max_tokens settings) ;;
  Ok (mkLLMClient (Config.core settings) html_optimization_llm
        action_generation_llm).

(** [HTMLOptimizer.__init__] *)
Definition HTMLOptimizer_init (providers : Providers)
    (settings : Config.Settings) : Res PyExc HTMLOptimizer.t :=
  llm_client <- LLMClient_init providers settings ;;
  Ok (HTMLOptimizer.mk (Config.core settings) llm_client).

(** [ActionGenerator.__init__] *)
Definition ActionGenerator_init (providers : Providers)
    (settings : Config.Settings) : Res PyExc ActionGenerator.t :=
  llm_client <- LLMClient_init providers settings ;;
  Ok (ActionGenerator.mk (Config.core settings) llm_client).

(** Lines 21-24 of [main.py]: the two components built when the module is
    loaded. *)
Definition startup (providers : Providers) (settings : Config.Settings)
  : Res PyExc (HTMLOptimizer.t * ActionGenerator.t) :=
  html_optimizer <- HTMLOptimizer_init providers settings ;;
  action_generator <- ActionGenerator_init providers settings ;;
  Ok (html_optimizer, action_generator).

End Client.

(* ================================================================= *)
(** ** More of [main.py] and of the parser's objects *)

Module More.

(** Lines 88-90 of [main.py]: the action as the handler logs it. *)
Definition action_preview (action : str) : str :=
  let action_preview :=
    List.map (fun c => if c =? 10 then 32 else c) action in
  if Nat.ltb 400 (List.length action_preview)
  then firstn 400 action_preview ++ py "..."
  else action_preview.

(** [obj.type] *)
Definition Action_type (o : Action) : str :=
  match o with
  | ABase a => base_type a
  | AClick a => click_type a
  | ANavigate a => nav_type a
  | AType a => type_type a
  | ASelect a => select_type a
  | AWait a => wait_type a
  end.

(** The discriminants [parse_action] dispatches on. *)
Definition known_types : list str :=
  [ py "ClickAction"; py "NavigateAction"; py "TypeAction";
    py "SelectAction"; py "WaitAction" ].

(** The keys [parse_action] reads from the decoded object. *)
Definition read_keys : list str :=
  [ py "type"; py "action"; py "selector"; py "url"; py "text"; py "value";
    py "time_seconds" ].

(** [s] neither starts nor ends with a character of [str.isspace]. *)
Definition trimmed (s : str) : Prop :=
  (forall c r, s = c :: r -> isspace c = false)
  /\ (forall c r, s = r ++ [c] -> isspace c = false).

(** The results of an entry's [result] that make a result line. *)
Definition has_result_line (entry : dict) : bool :=
  truthy (dict_get entry (py "result") (JStr [])).

End More.

(* ================================================================= *)
(** ** Sample replies and configurations *)

Module Samples.

(** A reply with an action that is none of the five known ones. *)
Definition scroll_reply : str := pyq "{`action`:`scroll`}".

Definition scroll_object : dict := [ (py "action", JStr (py "scroll")) ].

(** A selector of a kind that [SelectorType] does not have, and a valid
    one. *)
Definition css_kwargs : dict :=
  [ (py "type", JStr (py "css")); (py "value", JStr (py "#x")) ].

Definition xpath_kwargs : dict :=
  [ (py "type", JStr (py "xpathSelector")); (py "value", JStr (py "//a")) ].

Definition xpath : Selector := mkSelector XPATH_SELECTOR None (py "//a").

(** Navigate replies that carry a selector. *)
Definition navigate_css_reply : str :=
  pyq "{`action`:`Navigate`,`url`:`https://a.b`,`selector`:{`type`:`css`,`value`:`#x`}}".

Definition navigate_css_object : dict :=
  [ (py "action", JStr (py "Navigate"));
    (py "url", JStr (py "https://a.b"));
    (py "selector", JDict css_kwargs) ].

Definition navigate_object : dict :=
  [ (py "action", JStr (py "Navigate"));
    (py "url", JStr (py "https://a.b"));
    (py "selector", JDict xpath_kwargs) ].

(** A Type reply with its text. *)
Definition type_reply : str :=
  pyq "{`action`:`Type`,`text`:`hello`,`selector`:{`type`:`xpathSelector`,`value`:`//a`}}".

Definition type_object : dict :=
  [ (py "action", JStr (py "Type"));
    (py "text", JStr (py "hello"));
    (py "selector", JDict xpath_kwargs) ].

(** A history of two entries, the first with a result. *)
Definition history : list dict :=
  [ [ (py "action", JStr (py "click")); (py "result", JStr (py "ok")) ];
    [ (py "action", JStr (py "type")) ] ].

(** Chat model classes that build a model answering [reply], and classes
    that refuse every call. *)
Definition building (reply : str) : str -> FloatLit -> Z -> str -> Res PyExc ChatModel :=
  fun _ _ _ _ => Ok (Example.replying reply).

Definition refusing : str -> FloatLit -> Z -> str -> Res PyExc ChatModel :=
  fun _ _ _ _ => Raise (mkExc (py "Exception") (py "no network")).

(** The defaults with another provider name, and with a key for OpenAI. *)
Definition with_provider (name : str) : Config.Settings :=
  {| Config.llm_provider := name;
     Config.openai_api_key := None;
     Config.anthropic_api_key := None;
     Config.google_api_key := None;
     Config.html_optimization_model := py "gpt-4o-mini";
     Config.action_generation_model := py "gpt-4o";
     Config.html_optimization_temperature := FDec false 1 (-1);
     Config.action_generation_temperature := FDec false 3 (-1);
     Config.html_optimization_max_tokens := 4000;
     Config.action_generation_max_tokens := 500 |}.

Definition with_keys (openai anthropic : option str) : Config.Settings :=
  {| Config.llm_provider := py "openai";
     Config.openai_api_key := openai;
     Config.anthropic_api_key := anthropic;
     Config.google_api_key := None;
     Config.html_optimization_model := py "gpt-4o-mini";
     Config.action_generation_model := py "gpt-4o";
     Config.html_optimization_temperature := FDec false 1 (-1);
     Config.action_generation_temperature := FDec false 3 (-1);
     Config.html_optimization_max_tokens := 4000;
     Config.action_generation_max_tokens := 500 |}.

End Samples.

(* ================================================================= *)
(** * Facts *)

(** ** Strings *)

Module StrFacts.

Lemma eqb_eq (a b : str) : Str.eqb a b = true <-> a = b.
Proof.
  revert b; induction a as [|x a IH]; intros [|y b]; simpl; split;
    try congruence; try reflexivity.
  - intros H. apply andb_true_iff in H as [Hx Hr].
    apply N.eqb_eq in Hx. apply IH in Hr. congruence.
  - intros H. injection H as -> ->.
    rewrite N.eqb_refl. simpl. apply IH. reflexivity.
Qed.

Lemma eqb_refl (a : str) : Str.eqb a a = true.
Proof. apply eqb_eq. reflexivity. Qed.

Lemma startswith_app (p r : str) : startswith (p ++ r) p = true.
Proof.
  induction p as [|c p IH]; simpl.
  - destruct r; reflexivity.
  - rewrite N.eqb_refl. exact IH.
Qed.

Lemma endswith_app (s p : str) : endswith (s ++ p) p = true.
Proof.
  unfold endswith. rewrite rev_app_distr. apply startswith_app.
Qed.

End StrFacts.

(** ** The decoder: the fuel of [loads] is never used up *)

Module JsonFacts.

Import StrFacts.

Lemma skip_ws_le (s : str) : (List.length (skip_ws s) <= List.length s)%nat.
Proof.
  induction s as [|c s IH]; simpl; [lia|].
  destruct (is_ws c); simpl; lia.
Qed.

(** Case analysis on the conditionals and matches of a hypothesis. *)
Ltac break_in H :=
  repeat
    match type of H with
    | context [if ?b then _ else _] => destruct b eqn:?
    | context [match ?x with _ => _ end] => destruct x eqn:?
    end;
  try discriminate H.

Lemma scanstring_lt :
  forall (n : nat) (s acc v r : str),
    (List.length s <= n)%nat ->
    scanstring s acc = Some (v, r) ->
    (List.length r < List.length s)%nat.
Proof.
  induction n as [|n IH]; intros s acc v r Hn H.
  - destruct s; simpl in *; [discriminate | lia].
  - destruct s as [|c s]; simpl in H; [discriminate|].
    break_in H.
    all: try (injection H as <- <-; simpl; lia).
    all: apply IH in H; subst; simpl in *; lia.
Qed.

Lemma span_digits_le (s : str) :
  (List.length (snd (span_digits s)) <= List.length s)%nat.
Proof.
  induction s as [|c s IH]; simpl; [lia|].
  destruct (is_digit c); simpl; [|lia].
  destruct (span_digits s); simpl in *. lia.
Qed.

Lemma match_integer_lt (s : str) (neg : bool) (ds r : str) :
  match_integer s = Some (neg, ds, r) ->
  (List.length r < List.length s)%nat.
Proof.
  unfold match_integer. intros H.
  destruct s as [|c s]; simpl in H; [discriminate|].
  destruct (c =? 45).
  - destruct s as [|c' s]; [discriminate|].
    destruct (c' =? 48); [injection H as <- <- <-; simpl; lia|].
    destruct (is_digit c'); [|discriminate].
    pose proof (span_digits_le s) as L.
    destruct (span_digits s). injection H as <- <- <-. simpl in *. lia.
  - destruct (c =? 48); [injection H as <- <- <-; simpl; lia|].
    destruct (is_digit c); [|discriminate].
    pose proof (span_digits_le s) as L.
    destruct (span_digits s). injection H as <- <- <-. simpl in *. lia.
Qed.

Lemma match_frac_le (s : str) :
  (List.length (snd (match_frac s)) <= List.length s)%nat.
Proof.
  unfold match_frac. destruct s as [|c s]; simpl; [lia|].
  destruct (c =? 46); simpl; [|lia].
  pose proof (span_digits_le s) as L.
  destruct (span_digits s) as [[|d ds] r]; simpl in *; lia.
Qed.

Lemma match_exp_le (s : str) :
  (List.length (snd (match_exp s)) <= List.length s)%nat.
Proof.
  unfold match_exp. destruct s as [|c s]; simpl; [lia|].
  destruct ((c =? 101) || (c =? 69)); simpl; [|lia].
  destruct s as [|sg s']; simpl; [lia|].
  destruct (sg =? 45).
  - pose proof (span_digits_le s') as L.
    destruct (span_digits s') as [[|d ds] r]; simpl in *; lia.
  - destruct (sg =? 43).
    + pose proof (span_digits_le s') as L.
      destruct (span_digits s') as [[|d ds] r]; simpl in *; lia.
    + pose proof (span_digits_le (sg :: s')) as L.
      destruct (span_digits (sg :: s')) as [[|d ds] r]; simpl in *; lia.
Qed.

Lemma match_number_lt (s : str) (v : JSON) (r : str) :
  match_number s = Some (Done v r) ->
  (List.length r < List.length s)%nat.
Proof.
  unfold match_number. intros H.
  destruct (match_integer s) as [[[neg ids] r0]|] eqn:E; [|discriminate].
  apply match_integer_lt in E.
  pose proof (match_frac_le r0) as L1.
  destruct (match_frac r0) as [fds r1]. simpl in L1.
  pose proof (match_exp_le r1) as L2.
  destruct (match_exp r1) as [ex r2]. simpl in L2.
  destruct fds; destruct ex; break_in H; injection H as <- <-; lia.
Qed.

Lemma match_number_fuel (s : str) : match_number s <> Some NoFuel.
Proof.
  unfold match_number.
  destruct (match_integer s) as [[[neg ids] r0]|]; [|discriminate].
  destruct (match_frac r0) as [fds r1].
  destruct (match_exp r1) as [ex r2].
  destruct fds; destruct ex; try discriminate.
  destruct (Nat.ltb _ _); discriminate.
Qed.


Ltac len_facts :=
  repeat
    match goal with
    | H : skip_ws ?x = ?y |- _ =>
        let L := fresh "L" in
        pose proof (skip_ws_le x) as L; rewrite H in L; clear H
    | H : scanstring ?s ?a = Some (?v, ?r) |- _ =>
        apply (@scanstring_lt (List.length s) s a v r (le_n _)) in H
    | H : match_number ?s = Some (Done ?v ?r) |- _ =>
        apply match_number_lt in H
    | H : context [List.length (skip_ws ?x)] |- _ =>
        lazymatch goal with
        | _ : (List.length (skip_ws x) <= List.length x)%nat |- _ => fail
        | _ => pose proof (skip_ws_le x)
        end
    | |- context [List.length (skip_ws ?x)] =>
        lazymatch goal with
        | _ : (List.length (skip_ws x) <= List.length x)%nat |- _ => fail
        | _ => pose proof (skip_ws_le x)
        end
    end.

Lemma scan_shrinks (fuel : nat) :
  (forall s v r, scan_once fuel s = Done v r ->
                 (List.length r < List.length s)%nat) /\
  (forall acc s v r, array_items fuel acc s = Done v r ->
                     (List.length r < List.length s)%nat) /\
  (forall acc s v r, object_items fuel acc s = Done v r ->
                     (List.length r < List.length s)%nat).
Proof.
  induction fuel as [|fuel (IH1 & IH2 & IH3)].
  - repeat split; intros; discriminate.
  - repeat split.
    + intros s v r H. destruct s as [|c s]; [discriminate|].
      cbn [scan_once] in H.
      break_in H.
      all: try (injection H as <- <-).
      all: try (apply IH2 in H).
      all: try (apply IH3 in H).
      all: subst; len_facts.
      all: try (simpl in *; lia).
      all: repeat match goal with
             | |- context [match ?l with [] => _ | _ :: _ => _ end] => destruct l
             end; simpl; lia.
    + intros acc s v r H. cbn [array_items] in H.
      break_in H.
      all: try (injection H as <- <-).
      all: try (apply IH2 in H).
      all: repeat match goal with
             | E : scan_once _ _ = Done _ _ |- _ => apply IH1 in E
             end.
      all: len_facts.
      all: simpl in *; try lia.
    + intros acc s v r H. cbn [object_items] in H.
      break_in H.
      all: try (injection H as <- <-).
      all: try (apply IH3 in H).
      all: repeat match goal with
             | E : scan_once _ _ = Done _ _ |- _ => apply IH1 in E
             end.
      all: len_facts.
      all: simpl in *; try lia.
Qed.

Lemma scan_has_fuel (fuel : nat) :
  (forall s, (2 * List.length s + 1 <= fuel)%nat -> scan_once fuel s <> NoFuel) /\
  (forall acc s, (2 * List.length s + 2 <= fuel)%nat ->
                 array_items fuel acc s <> NoFuel) /\
  (forall acc s, (2 * List.length s + 1 <= fuel)%nat ->
                 object_items fuel acc s <> NoFuel).
Proof.
  induction fuel as [|fuel (IH1 & IH2 & IH3)].
  - repeat split; intros; lia.
  - repeat split.
    + intros s Hf H. destruct s as [|c s]; [discriminate|].
      cbn [scan_once] in H.
      break_in H.
      all: try (apply IH2 in H; [exact H|]).
      all: try (apply IH3 in H; [exact H|]).
      all: subst; len_facts; simpl in *; try lia.
      all: try (eapply match_number_fuel; eassumption).
    + intros acc s Hf H. cbn [array_items] in H.
      break_in H.
      all: try (apply IH2 in H; [exact H|]).
      all: try (apply IH1 in H; [exact H|]).
      all: repeat match goal with
             | E : scan_once _ _ = Done _ _ |- _ =>
                 apply (proj1 (scan_shrinks _)) in E
             | E : scan_once _ _ = NoFuel |- _ =>
                 apply IH1 in E; [exact E|]
             end.
      all: len_facts; simpl in *; try lia.
    + intros acc s Hf H. cbn [object_items] in H.
      break_in H.
      all: try (apply IH3 in H; [exact H|]).
      all: repeat match goal with
             | E : scan_once _ _ = Done _ _ |- _ =>
                 apply (proj1 (scan_shrinks _)) in E
             | E : scan_once _ _ = NoFuel |- _ =>
                 apply IH1 in E; [exact E|]
             end.
      all: len_facts; simpl in *; try lia.
Qed.


Lemma loads_has_fuel (s : str) : scan_once (fuel_for s) (skip_ws s) <> NoFuel.
Proof.
  apply (proj1 (scan_has_fuel (fuel_for s))).
  unfold fuel_for. pose proof (skip_ws_le s). lia.
Qed.

(** More fuel does not change a result that was reached. *)
Lemma scan_fuel_mono (fuel : nat) :
  (forall fuel' s, (fuel <= fuel')%nat -> scan_once fuel s <> NoFuel ->
                   scan_once fuel' s = scan_once fuel s) /\
  (forall fuel' acc s, (fuel <= fuel')%nat -> array_items fuel acc s <> NoFuel ->
                       array_items fuel' acc s = array_items fuel acc s) /\
  (forall fuel' acc s, (fuel <= fuel')%nat -> object_items fuel acc s <> NoFuel ->
                       object_items fuel' acc s = object_items fuel acc s).
Proof.
  induction fuel as [|fuel (IH1 & IH2 & IH3)].
  - repeat split; intros; simpl in *; congruence.
  - repeat split.
    + intros [|fuel'] s Hle H; [lia|].
      destruct s as [|c s]; [reflexivity|].
      cbn [scan_once] in *.
      repeat match goal with
        | |- context [if ?b then _ else _] => destruct b eqn:?
        | |- context [match skip_ws ?x with _ => _ end] => destruct (skip_ws x) eqn:?
        | |- context [match scanstring ?x ?a with _ => _ end] => destruct (scanstring x a) as [[? ?]|] eqn:?
        | |- context [match match_number ?x with _ => _ end] => destruct (match_number x) eqn:?
        end; try reflexivity.
      * apply IH3; [lia | exact H].
      * apply IH2; [lia | exact H].
    + intros [|fuel'] acc s Hle H; [lia|].
      cbn [array_items] in *.
      rewrite (IH1 fuel' s) by (try lia; intros E; rewrite E in H; congruence).
      destruct (scan_once fuel s) as [v r| |] eqn:E1; try reflexivity.
      destruct (skip_ws r) as [|c1 r1] eqn:E2; try reflexivity.
      destruct (c1 =? 93); try reflexivity.
      destruct (c1 =? 44); try reflexivity.
      apply IH2; [lia | exact H].
    + intros [|fuel'] acc s Hle H; [lia|].
      cbn [object_items] in *.
      destruct (scanstring s []) as [[key r]|]; try reflexivity.
      destruct (skip_ws r) as [|c1 r1] eqn:E2; try reflexivity.
      destruct (c1 =? 58); try reflexivity.
      rewrite (IH1 fuel' (skip_ws r1))
        by (try lia; intros E; rewrite E in H; congruence).
      destruct (scan_once fuel (skip_ws r1)) as [v r2| |] eqn:E1; try reflexivity.
      destruct (skip_ws r2) as [|c2 r3] eqn:E3; try reflexivity.
      destruct (c2 =? 125); try reflexivity.
      destruct (c2 =? 44); try reflexivity.
      destruct (skip_ws r3) as [|c3 r4] eqn:E4; try reflexivity.
      destruct (c3 =? 34); try reflexivity.
      apply IH3; [lia | exact H].
Qed.

(** [loads] does not depend on the fuel, once there is enough of it. *)
Lemma loads_fuel_irrelevant (s : str) (fuel : nat) :
  (fuel_for s <= fuel)%nat ->
  scan_once fuel (skip_ws s) = scan_once (fuel_for s) (skip_ws s).
Proof.
  intros H. apply (proj1 (scan_fuel_mono (fuel_for s))); [exact H|].
  apply loads_has_fuel.
Qed.

End JsonFacts.

Import StrFacts JsonFacts.

(** ** The action parser *)

Module ParserFacts.
Import ActionGenerator Spec.

(** Case analysis on every conditional and match among the hypotheses. *)
Ltac break_hyps :=
  repeat
    match goal with
    | H : context [match ?x with _ => _ end] |- _ =>
        destruct x eqn:?; try discriminate H
    | H : context [if ?b then _ else _] |- _ =>
        destruct b eqn:?; try discriminate H
    end.

Section WithRuntime.
Context {rt : PyRuntime}.

Lemma loads_nil : Json.loads [] = None.
Proof. reflexivity. Qed.

Lemma parse_action_loaded (action_text : str) (data : JSON) :
  Json.loads action_text = Some data ->
  parse_action action_text =
  match parse_action_try data with
  | Ok rendered => rendered
  | Raise _ => strip action_text
  end.
Proof.
  intros H. unfold parse_action.
  destruct action_text as [|c s]; [rewrite loads_nil in H; discriminate|].
  rewrite H. reflexivity.
Qed.

Lemma parse_action_not_loaded (action_text : str) :
  Json.loads action_text = None ->
  parse_action action_text = strip action_text.
Proof.
  intros H. unfold parse_action.
  destruct action_text as [|c s]; [reflexivity|].
  rewrite H. reflexivity.
Qed.

(** The body of the [try] fails exactly when one of its stages does. *)
Lemma parse_action_try_raises (data : JSON) (e : ExcClass) :
  parse_action_try data = Raise e <->
  read_action_type data = Raise e
  \/ (exists t, read_action_type data = Ok t /\ read_selector data = Raise e)
  \/ (exists t sel, read_action_type data = Ok t /\ read_selector data = Ok sel
                    /\ construct data t sel = Raise e).
Proof.
  unfold parse_action_try, build_action.
  destruct (read_action_type data) as [t|e1] eqn:E1; simpl;
    [destruct (read_selector data) as [sel|e2] eqn:E2; simpl;
       [destruct (construct data t sel) as [obj|e3] eqn:E3; simpl|]|].
  all: split;
    [ intros H; try discriminate;
      first [ left; congruence
            | right; left; exists t; split; congruence
            | right; right; exists t, sel; repeat split; congruence ]
    | intros [H|[(t' & Ht & H)|(t' & sel' & Ht & Hs & H)]]; congruence ].
Qed.

Lemma parse_action_try_ok (data : JSON) (rendered : str) :
  parse_action_try data = Ok rendered <->
  exists obj, build_action data = Ok obj /\ rendered = Action_str obj.
Proof.
  unfold parse_action_try.
  destruct (build_action data) as [obj|e]; simpl.
  - split.
    + intros H. injection H as <-. exists obj. auto.
    + intros (obj' & H & ->). injection H as <-. reflexivity.
  - split; [discriminate|]. intros (obj' & H & _). discriminate.
Qed.

(** C1. [parse_action] returns a string on every input, through one of
    three exits: the empty input as it is, the trimmed input, or the
    rendering of the shape built from the decoded JSON.  Whenever an
    exception is raised in the body of the second [try] (while the
    discriminant is read, the selector is built or the shape is
    constructed; rendering raises nothing), the result is the trimmed
    input. *)
Theorem parse_action_never_raises (action_text : str) :
  ((action_text = [] /\ parse_action action_text = [])
   \/ parse_action action_text = strip action_text
   \/ exists data obj,
        Json.loads action_text = Some data /\ build_action data = Ok obj
        /\ parse_action action_text = Action_str obj)
  /\
  (forall data e,
     Json.loads action_text = Some data ->
     (parse_action_try data = Raise e
      \/ read_action_type data = Raise e
      \/ (exists t, read_action_type data = Ok t /\ read_selector data = Raise e)
      \/ (exists t sel, read_action_type data = Ok t
                        /\ read_selector data = Ok sel
                        /\ construct data t sel = Raise e)) ->
     parse_action action_text = strip action_text).
Proof.
  split.
  - destruct (Json.loads action_text) as [data|] eqn:L.
    + rewrite (parse_action_loaded _ L).
      destruct (parse_action_try data) as [rendered|e] eqn:T.
      * right. right. apply parse_action_try_ok in T as (obj & B & ->).
        exists data, obj. auto.
      * right. left. reflexivity.
    + right. left. apply parse_action_not_loaded. exact L.
  - intros data e L H.
    assert (T : parse_action_try data = Raise e).
    { destruct H as [H|H]; [exact H|]. apply parse_action_try_raises. exact H. }
    rewrite (parse_action_loaded _ L), T. reflexivity.
Qed.

(** C4. When [json.loads] fails on a non-empty input, [parse_action]
    returns the input with surrounding whitespace removed; the empty input
    is returned as it is. *)
Theorem non_json_text_is_trimmed :
  (forall action_text,
     action_text <> [] -> Json.loads action_text = None ->
     parse_action action_text = strip action_text)
  /\ parse_action [] = [].
Proof.
  split; [|reflexivity].
  intros action_text _ L. apply parse_action_not_loaded. exact L.
Qed.

(** C10. When [json.loads] succeeds with a value that is not an object
    (a number, a string, a boolean, null or an array), reading the
    discriminant raises [AttributeError], and [parse_action] returns the
    input with surrounding whitespace removed. *)
Theorem non_object_json_is_trimmed (action_text : str) (data : JSON) :
  action_text <> [] ->
  Json.loads action_text = Some data ->
  (forall d, data <> JDict d) ->
  read_discriminant data = Raise AttributeError
  /\ parse_action action_text = strip action_text.
Proof.
  intros _ L ND.
  assert (R : read_discriminant data = Raise AttributeError).
  { destruct data; try reflexivity. exfalso. eapply ND. reflexivity. }
  split; [exact R|].
  rewrite (parse_action_loaded _ L).
  unfold parse_action_try, build_action, read_action_type. rewrite R. reflexivity.
Qed.

(** *** The discriminant *)

Lemma read_discriminant_dict (d : dict) :
  read_discriminant (JDict d) =
  Ok (if truthy (dict_get d (py "type") JNull)
      then dict_get d (py "type") JNull
      else dict_get d (py "action") JNull).
Proof.
  unfold read_discriminant, get. simpl.
  destruct (truthy (dict_get d (py "type") JNull)); reflexivity.
Qed.

Lemma dict_get_missing (d : dict) (k : str) (default : JSON) :
  dict_find d k = None -> dict_get d k default = default.
Proof. unfold dict_get. intros ->. reflexivity. Qed.

(** C3, amended. For a decoded JSON object the discriminant is the value
    of [type] when that value is truthy, and the value of [action]
    otherwise: the first truthy value wins, in the order [type] then
    [action], so [type] is preferred when both are truthy.  In particular
    the discriminant is the first non-null value whenever [type] is null,
    absent or truthy.  If neither key is present, [parse_action] returns
    the trimmed input. *)
Theorem discriminant_first_truthy (action_text : str) (d : dict) :
  Json.loads action_text = Some (JDict d) ->
  let type_ := dict_get d (py "type") JNull in
  let action_ := dict_get d (py "action") JNull in
  (truthy type_ = true -> read_discriminant (JDict d) = Ok type_)
  /\ (truthy type_ = false -> read_discriminant (JDict d) = Ok action_)
  /\ (type_ = JNull \/ truthy type_ = true ->
      read_discriminant (JDict d) = Ok (first_non_null d))
  /\ (dict_find d (py "type") = None -> dict_find d (py "action") = None ->
      parse_action action_text = strip action_text).
Proof.
  intros L type_ action_.
  pose proof (read_discriminant_dict d) as R. fold type_ action_ in R.
  repeat split.
  - intros T. rewrite R, T. reflexivity.
  - intros T. rewrite R, T. reflexivity.
  - intros [N|T]; rewrite R; unfold first_non_null; fold type_ action_.
    + rewrite N. reflexivity.
    + rewrite T. destruct type_; try reflexivity. discriminate.
  - intros Nt Na.
    rewrite (parse_action_loaded _ L).
    unfold parse_action_try, build_action, read_action_type.
    rewrite R. unfold type_, action_.
    rewrite !dict_get_missing by assumption.
    reflexivity.
Qed.

(** *** Shapes that need a selector *)

Lemma selector_shape_cases (t : str) :
  selector_shape t = true ->
  t = py "ClickAction" \/ t = py "TypeAction" \/ t = py "SelectAction".
Proof.
  unfold selector_shape. intros H.
  apply orb_true_iff in H as [H|H]; [apply orb_true_iff in H as [H|H]|];
    apply StrFacts.eqb_eq in H; auto.
Qed.

Lemma Selector_init_raises (kwargs : dict) (e : ExcClass) :
  Selector_init kwargs = Raise e -> e = ValidationError.
Proof.
  unfold Selector_init, required, validate_SelectorType, validate_str,
    validate_optional_str, bind.
  intros H. break_hyps; congruence.
Qed.

Lemma construct_without_selector (data : JSON) (t : str) :
  selector_shape t = true ->
  (exists d, data = JDict d) ->
  construct data t None = Raise ValidationError.
Proof.
  intros H (d & ->).
  apply selector_shape_cases in H as [ -> | [ -> | -> ] ]; reflexivity.
Qed.

(** C5. Whenever [parse_action] renders a Click, Type or Select shape,
    the shape carries the selector built from the input, which is not
    [None].  When the discriminant is that of a Click, Type or Select
    shape and the selector is missing, is not an object, or is an object
    from which no [Selector] can be constructed, the construction raises
    [ValidationError] and [parse_action] returns the trimmed input. *)
Theorem selector_shapes_carry_selector (action_text : str) (data : JSON) :
  Json.loads action_text = Some data ->
  (forall obj,
     build_action data = Ok obj -> needs_selector obj = true ->
     parse_action action_text = Action_str obj
     /\ action_selector_of obj <> None
     /\ read_selector data = Ok (action_selector_of obj))
  /\
  (forall d action_type,
     data = JDict d ->
     read_action_type data = Ok action_type ->
     selector_shape action_type = true ->
     (dict_find d (py "selector") = None
      \/ (exists v, dict_find d (py "selector") = Some v
                    /\ forall kwargs, v <> JDict kwargs)
      \/ (exists kwargs e, dict_find d (py "selector") = Some (JDict kwargs)
                           /\ Selector_init kwargs = Raise e)) ->
     build_action data = Raise ValidationError
     /\ parse_action action_text = strip action_text).
Proof.
  intros L. split.
  - intros obj B N. split.
    + rewrite (parse_action_loaded _ L). unfold parse_action_try.
      rewrite B. reflexivity.
    + unfold build_action in B.
      destruct (read_action_type data) as [t|e]; [|discriminate].
      destruct (read_selector data) as [sel|e]; [|discriminate].
      simpl in B. unfold construct in B.
      unfold ClickAction_init, TypeAction_init, SelectAction_init,
        NavigateAction_init, WaitAction_init, BaseAction_init,
        validate_Selector in B.
      destruct sel as [sel|]; JsonFacts.break_in B.
      all: unfold validate_optional_str, validate_str, get, bind in B.
      all: break_hyps.
      all: repeat match goal with
             | H : Ok _ = Ok _ |- _ => injection H as <-
             end.
      all: simpl in N; try discriminate N.
      all: simpl; split; congruence.

  - intros d t -> T S Hsel.
    assert (B : build_action (JDict d) = Raise ValidationError).
    { unfold build_action. rewrite T. simpl.
      unfold read_selector, get. simpl. unfold dict_get.
      destruct Hsel as [M|[(v & M & NO)|(kw & e & M & SI)]]; rewrite M.
      - simpl. apply construct_without_selector; eauto.
      - destruct v; simpl; try (apply construct_without_selector; eauto).
        exfalso. eapply NO. reflexivity.
      - simpl. rewrite SI. simpl.
        apply Selector_init_raises in SI. congruence. }
    split; [exact B|].
    rewrite (parse_action_loaded _ L). unfold parse_action_try. rewrite B.
    reflexivity.
Qed.

(** *** Normalisation of the discriminant *)

Lemma normalize_idempotent (s : str) : normalize (normalize s) = normalize s.
Proof.
  unfold normalize.
  destruct (endswith s (py "Action")) eqn:E; simpl.
  - rewrite E. reflexivity.
  - rewrite endswith_app. reflexivity.
Qed.

(** C6, amended. A discriminant that does not end in [Action] gets
    [Action] appended, one that does is left alone, and normalising twice
    changes nothing more.  For every selector object from which a
    [Selector] can be constructed, the JSON object with type [Click] and
    that selector and the JSON object with type [ClickAction] and the same
    selector are parsed to the same string, the rendering of the Click
    shape. *)
Theorem click_normalization (text1 text2 : str) (kwargs : dict) (sel : Selector) :
  Json.loads text1
    = Some (JDict [(py "type", JStr (py "Click")); (py "selector", JDict kwargs)]) ->
  Json.loads text2
    = Some (JDict [(py "type", JStr (py "ClickAction")); (py "selector", JDict kwargs)]) ->
  Selector_init kwargs = Ok sel ->
  (forall s, endswith s (py "Action") = false -> normalize s = s ++ py "Action")
  /\ (forall s, endswith s (py "Action") = true -> normalize s = s)
  /\ (forall s, normalize (normalize s) = normalize s)
  /\ normalize (py "Click") = py "ClickAction"
  /\ parse_action text1 = parse_action text2
  /\ parse_action text1 = Action_str (AClick (mkClickAction (py "ClickAction") sel)).
Proof.
  intros L1 L2 S.
  repeat split.
  - intros s E. unfold normalize. rewrite E. reflexivity.
  - intros s E. unfold normalize. rewrite E. reflexivity.
  - apply normalize_idempotent.
  - rewrite (parse_action_loaded _ L1), (parse_action_loaded _ L2).
    unfold parse_action_try, build_action, read_selector, get. simpl.
    unfold dict_get. simpl. rewrite S. reflexivity.
  - rewrite (parse_action_loaded _ L1).
    unfold parse_action_try, build_action, read_selector, get. simpl.
    unfold dict_get. simpl. rewrite S. reflexivity.
Qed.

(** C8. The reply of the prompt's Click schema is parsed to the
    rendering of a Click shape with an XPath selector, and the returned
    string contains the XPath as it was written. *)
Theorem parse_click_example :
  let text :=
    pyq "{`action`:`ClickAction`,`selector`:{`type`:`xpathSelector`,`value`:`//button`}}" in
  let shape :=
    AClick (mkClickAction (py "ClickAction")
              (mkSelector XPATH_SELECTOR None (py "//button"))) in
  (exists data, Json.loads text = Some data /\ build_action data = Ok shape)
  /\ parse_action text = Action_str shape
  /\ parse_action text =
     py "type='ClickAction' selector=Selector(type=<SelectorType.XPATH_SELECTOR: 'xpathSelector'>, attribute=None, value='//button')"
  /\ contains (parse_action text) (py "//button").
Proof.
  intros text shape. split; [|split; [|split]].
  - eexists. split; vm_compute; reflexivity.
  - vm_compute. reflexivity.
  - vm_compute. reflexivity.
  - exists (py "type='ClickAction' selector=Selector(type=<SelectorType.XPATH_SELECTOR: 'xpathSelector'>, attribute=None, value='"),
      (py "')").
    vm_compute. reflexivity.
Qed.

End WithRuntime.
End ParserFacts.

(** ** Prompts, orchestrators and the handler *)

Module PromptFacts.
Import ActionGenerator Spec.

Section WithRuntime.
Context {rt : PyRuntime}.

(** The action prompt: the template with its five placeholders filled. *)
Lemma action_prompt_render (task url step prev html : str) :
  Template.substitute WEB_ACTION_GENERATOR_PROMPT
    [ (py "task", task); (py "url", url); (py "step_index", step);
      (py "previous_actions", prev); (py "optimized_html", html) ]
  = Ok ((slice WEB_ACTION_GENERATOR_PROMPT 0 288 ++ task
         ++ slice WEB_ACTION_GENERATOR_PROMPT 293 308 ++ url
         ++ slice WEB_ACTION_GENERATOR_PROMPT 312 320 ++ step ++ [10; 10])
        ++ py "Previous Actions:" ++ [10] ++ prev ++ [10]
        ++ ([10] ++ py "Current Page HTML (optimized):" ++ [10] ++ html
            ++ slice WEB_ACTION_GENERATOR_PROMPT 416 2971)).
Proof. repeat rewrite <- app_assoc. vm_compute. reflexivity. Qed.

(** The optimisation prompt: the template with its two placeholders
    filled. *)
Lemma optimizer_prompt_render (url raw_html : str) :
  Template.substitute HTML_OPTIMIZER_PROMPT
    [ (py "url", url); (py "raw_html", raw_html) ]
  = Ok (slice HTML_OPTIMIZER_PROMPT 0 278 ++ url
        ++ slice HTML_OPTIMIZER_PROMPT 282 294 ++ raw_html
        ++ slice HTML_OPTIMIZER_PROMPT 303 2450).
Proof. vm_compute. reflexivity. Qed.

(** *** The transcript *)

Lemma format_entry_lines (k : N) (acc : list str) (entry : dict) :
  format_entry (k, acc) entry = (k + 1, acc ++ raw_entry_lines k entry).
Proof.
  unfold format_entry, raw_entry_lines.
  destruct (truthy (dict_get entry (py "result") (JStr [])));
    [rewrite <- app_assoc|]; reflexivity.
Qed.

Lemma fold_format_entry (history : list dict) :
  forall (k : N) (acc : list str),
    fold_left format_entry history (k, acc)
    = (k + N.of_nat (List.length history), acc ++ raw_transcript k history).
Proof.
  induction history as [|entry history IH]; intros k acc.
  - simpl. rewrite N.add_0_r, app_nil_r. reflexivity.
  - cbn [fold_left]. rewrite format_entry_lines, IH.
    cbn [raw_transcript List.length]. rewrite <- app_assoc.
    f_equal. lia.
Qed.

Lemma format_history_raw (entry : dict) (history : list dict) :
  _format_history (entry :: history)
  = join [10] (raw_transcript 1 (entry :: history)).
Proof.
  unfold _format_history. rewrite fold_format_entry. reflexivity.
Qed.

Lemma raw_entry_lines_typed (k : N) (e : HistoryEntry) :
  raw_entry_lines k (entry_dict e) = entry_lines k e.
Proof.
  destruct e as [a [[|c r]|]]; reflexivity.
Qed.

Lemma raw_transcript_typed (history : list HistoryEntry) :
  forall k, raw_transcript k (List.map entry_dict history) = transcript k history.
Proof.
  induction history as [|e history IH]; intros k; [reflexivity|].
  cbn [List.map raw_transcript transcript].
  rewrite raw_entry_lines_typed, IH. reflexivity.
Qed.

Lemma format_history_transcript (e : HistoryEntry) (history : list HistoryEntry) :
  _format_history (List.map entry_dict (e :: history))
  = join [10] (transcript 1 (e :: history)).
Proof.
  cbn [List.map]. rewrite format_history_raw.
  change (entry_dict e :: List.map entry_dict history)
    with (List.map entry_dict (e :: history)).
  rewrite raw_transcript_typed. reflexivity.
Qed.

Lemma join_head (sep : str) (c : N) (p : str) (rest : list str) :
  exists t, join sep ((c :: p) :: rest) = c :: t.
Proof. destruct rest; simpl; eexists; reflexivity. Qed.

Lemma transcript_head (k : N) (entry : dict) (history : list dict) :
  exists t, join [10] (raw_transcript k (entry :: history)) = 83 :: t.
Proof.
  cbn [raw_transcript]. unfold raw_entry_lines.
  set (action := py_str (dict_get entry (py "action") (JStr (py "unknown")))).
  change (py "Step " ++ digits k ++ py ": " ++ action)
    with (83 :: (py "tep " ++ digits k ++ py ": " ++ action)).
  cbn [app]. apply join_head.
Qed.

Lemma step_lines_filter (history : list HistoryEntry) :
  forall k,
    filter (fun line => startswith line (py "Step ")) (transcript k history)
    = step_lines k history.
Proof.
  induction history as [|e history IH]; intros k; [reflexivity|].
  cbn [transcript step_lines]. rewrite filter_app, IH.
  unfold entry_lines. cbn [filter].
  rewrite startswith_app.
  destruct (h_result e) as [[|c r]|]; reflexivity.
Qed.

Lemma step_lines_length (history : list HistoryEntry) :
  forall k, List.length (step_lines k history) = List.length history.
Proof.
  induction history as [|e history IH]; intros k; simpl; [|rewrite IH];
    reflexivity.
Qed.

(** *** The lines of the rendered text *)

Lemma no_line_feed_app (a b : str) :
  no_line_feed (a ++ b) = no_line_feed a && no_line_feed b.
Proof.
  unfold no_line_feed. rewrite existsb_app, negb_orb. reflexivity.
Qed.

Lemma split_lines_last (line : str) :
  no_line_feed line = true -> split_lines line = [line].
Proof.
  induction line as [|c line IH]; intros H; [reflexivity|].
  unfold no_line_feed in H. cbn [existsb] in H.
  rewrite negb_orb in H. apply andb_prop in H as (C & L).
  cbn [split_lines]. rewrite N.eqb_sym.
  destruct (10 =? c); [discriminate C|].
  rewrite (IH L). reflexivity.
Qed.

Lemma split_lines_line (line rest : str) :
  no_line_feed line = true ->
  split_lines (line ++ 10 :: rest) = line :: split_lines rest.
Proof.
  induction line as [|c line IH]; intros H; [reflexivity|].
  unfold no_line_feed in H. cbn [existsb] in H.
  rewrite negb_orb in H. apply andb_prop in H as (C & L).
  cbn [app split_lines]. rewrite N.eqb_sym.
  destruct (10 =? c); [discriminate C|].
  rewrite (IH L). reflexivity.
Qed.

Lemma split_lines_join (line : str) (lines : list str) :
  forallb no_line_feed (line :: lines) = true ->
  split_lines (join [10] (line :: lines)) = line :: lines.
Proof.
  revert line. induction lines as [|next lines IH]; intros line H;
    cbn [forallb] in H; apply andb_prop in H as (L & R).
  - apply split_lines_last. exact L.
  - cbn [join]. cbn [app]. rewrite split_lines_line by exact L.
    f_equal. apply IH. exact R.
Qed.

Lemma digits_fuel_no_line_feed (fuel : nat) :
  forall (n : N) (acc : str),
    no_line_feed acc = true -> no_line_feed (digits_fuel fuel n acc) = true.
Proof.
  induction fuel as [|fuel IH]; intros n acc A; [exact A|].
  cbn [digits_fuel].
  assert (A' : no_line_feed ((48 + n mod 10) :: acc) = true).
  { unfold no_line_feed in *. cbn [existsb]. rewrite negb_orb, A.
    destruct (N.eqb_spec 10 (48 + n mod 10)) as [E|E];
      [exfalso; revert E; generalize (n mod 10); intros m E; lia|reflexivity]. }
  destruct (n <? 10); [exact A'|]. apply IH. exact A'.
Qed.

Lemma digits_no_line_feed (n : N) : no_line_feed (digits n) = true.
Proof. apply digits_fuel_no_line_feed. reflexivity. Qed.

Lemma entry_lines_single (k : N) (e : HistoryEntry) :
  single_line e = true -> forallb no_line_feed (entry_lines k e) = true.
Proof.
  unfold single_line, entry_lines. intros H.
  apply andb_prop in H as (A & R).
  assert (S : no_line_feed (py "Step " ++ digits k ++ py ": " ++ h_action e)
              = true).
  { rewrite !no_line_feed_app, digits_no_line_feed, A. reflexivity. }
  cbn [forallb]. rewrite S.
  destruct (h_result e) as [[|c r]|]; try reflexivity.
  cbn [forallb]. rewrite no_line_feed_app, R. reflexivity.
Qed.

Lemma transcript_single (history : list HistoryEntry) :
  forall k,
    forallb single_line history = true ->
    forallb no_line_feed (transcript k history) = true.
Proof.
  induction history as [|e history IH]; intros k H; [reflexivity|].
  cbn [forallb] in H. apply andb_prop in H as (E & R).
  cbn [transcript]. rewrite forallb_app, entry_lines_single by exact E.
  rewrite IH by exact R. reflexivity.
Qed.

Lemma rendered_lines (e : HistoryEntry) (rest : list HistoryEntry) :
  forallb single_line (e :: rest) = true ->
  split_lines (_format_history (List.map entry_dict (e :: rest)))
  = transcript 1 (e :: rest).
Proof.
  intros H. rewrite format_history_transcript.
  assert (T : forallb no_line_feed (transcript 1 (e :: rest)) = true)
    by (apply transcript_single; exact H).
  cbn [transcript] in *. unfold entry_lines at 1 in T. unfold entry_lines at 1.
  cbn [app] in *. apply split_lines_join. exact T.
Qed.

(** C7, amended. With an empty history the generation prompt shows the
    sentinel under its heading.  A history that is not empty is formatted
    as the lines of its entries joined by line feeds, and the generation
    prompt shows this text under the heading; entry k (counted from 1)
    gives [Step k: action], followed by [  Result: result] exactly when
    its result is truthy.  For the entries of the data model (an action and
    an optional result, both text) whose actions and results have no line
    feed, the lines of the rendered text are exactly those: for each entry
    in order its step line, followed by its result line exactly when the
    result is there and not empty; the lines that start with [Step ] are
    the N step lines, in order. *)
Theorem history_formatting :
  (_format_history [] = []
   /\ forall self prompt optimized_html step_index url,
        exists pre post,
          _build_action_prompt self prompt optimized_html step_index [] url
          = Ok (pre ++ py "Previous Actions:" ++ [10]
                ++ py "No previous actions" ++ [10] ++ post))
  /\
  (forall (entry : dict) (rest : list dict),
     let history := entry :: rest in
     _format_history history = join [10] (raw_transcript 1 history)
     /\ forall self prompt optimized_html step_index url,
          exists pre post,
            _build_action_prompt self prompt optimized_html step_index
              history url
            = Ok (pre ++ py "Previous Actions:" ++ [10]
                  ++ join [10] (raw_transcript 1 history) ++ [10] ++ post))
  /\
  (forall (e : HistoryEntry) (rest : list HistoryEntry),
     let history := e :: rest in
     forallb single_line history = true ->
     let rendered := _format_history (List.map entry_dict history) in
     split_lines rendered = transcript 1 history
     /\ filter (fun line => startswith line (py "Step ")) (split_lines rendered)
        = step_lines 1 history
     /\ List.length
          (filter (fun line => startswith line (py "Step "))
             (split_lines rendered))
        = List.length history).
Proof.
  split; [|split].
  - split; [reflexivity|].
    intros self prompt optimized_html step_index url.
    unfold _build_action_prompt. cbn [_format_history].
    rewrite action_prompt_render. eexists. eexists. reflexivity.
  - intros entry rest history. subst history. split.
    + apply format_history_raw.
    + intros self prompt optimized_html step_index url.
      unfold _build_action_prompt.
      rewrite format_history_raw.
      set (text := join [10] (raw_transcript 1 (entry :: rest))).
      assert (M : match text with
                  | [] => py "No previous actions"
                  | _ :: _ => text
                  end = text).
      { unfold text. destruct (transcript_head 1 entry rest) as (t & ->).
        reflexivity. }
      cbv zeta. rewrite M, action_prompt_render.
      eexists. eexists. reflexivity.
  - intros e rest history H rendered. subst history rendered.
    rewrite rendered_lines by exact H.
    rewrite step_lines_filter, step_lines_length.
    repeat split.
Qed.

End WithRuntime.
End PromptFacts.

Module HandlerFacts.
Import Main.

Section WithRuntime.
Context {rt : PyRuntime}.

Lemma optimization_prompt_ok (self : HTMLOptimizer.t) (html url : str)
    (task_context : option str) :
  exists prompt,
    HTMLOptimizer._build_optimization_prompt self html url task_context
    = Ok prompt.
Proof.
  unfold HTMLOptimizer._build_optimization_prompt.
  rewrite PromptFacts.optimizer_prompt_render. eexists. reflexivity.
Qed.

Lemma action_prompt_ok (self : ActionGenerator.t) (prompt optimized_html : str)
    (step_index : Z) (history : list dict) (url : str) :
  exists action_prompt,
    ActionGenerator._build_action_prompt self prompt optimized_html step_index
      history url
    = Ok action_prompt.
Proof.
  unfold ActionGenerator._build_action_prompt.
  rewrite PromptFacts.action_prompt_render. eexists. reflexivity.
Qed.

(** C9. Both prompts are always built, and each orchestrator returns the
    reply of its chat model with surrounding whitespace removed and nothing
    else changed; a failure of the chat model is passed on as it is. *)
Theorem orchestrators_return_trimmed_reply :
  (forall (self : HTMLOptimizer.t) html url task_context,
     exists prompt,
       HTMLOptimizer._build_optimization_prompt self html url task_context
       = Ok prompt
       /\ (forall r,
             html_optimization_llm (HTMLOptimizer.llm_client self) prompt = Ok r ->
             HTMLOptimizer.optimize self html url task_context = Ok (strip r))
       /\ (forall e,
             html_optimization_llm (HTMLOptimizer.llm_client self) prompt = Raise e ->
             HTMLOptimizer.optimize self html url task_context = Raise e))
  /\
  (forall (self : ActionGenerator.t) prompt optimized_html step_index history url,
     exists action_prompt,
       ActionGenerator._build_action_prompt self prompt optimized_html
         step_index history url
       = Ok action_prompt
       /\ (forall r,
             action_generation_llm (ActionGenerator.llm_client self) action_prompt
             = Ok r ->
             ActionGenerator.generate_action self prompt optimized_html
               step_index history url
             = Ok (strip r))
       /\ (forall e,
             action_generation_llm (ActionGenerator.llm_client self) action_prompt
             = Raise e ->
             ActionGenerator.generate_action self prompt optimized_html
               step_index history url
             = Raise e)).
Proof.
  split.
  - intros self html url task_context.
    destruct (optimization_prompt_ok self html url task_context) as (p & P).
    exists p. split; [exact P|].
    unfold HTMLOptimizer.optimize, generate. rewrite P. cbn [bind].
    split; intros x H; rewrite H; reflexivity.
  - intros self prompt optimized_html step_index history url.
    destruct (action_prompt_ok self prompt optimized_html step_index history url)
      as (p & P).
    exists p. split; [exact P|].
    unfold ActionGenerator.generate_action, generate. rewrite P. cbn [bind].
    split; intros x H; rewrite H; reflexivity.
Qed.

(** C2, amended. For a valid request, when reduction and generation
    return, [act] answers 200 with the [task_id] and [step_index] of the
    request and, as [action], what [parse_action] makes of the generator's
    reply; parsing raises nothing.  When reduction or generation raises an
    instance of [Exception], it answers 500 with the detail
    [Error processing action: ] followed by the exception's message.  An
    exception that is no instance of [Exception] is not caught: it leaves
    the handler, and no 500 answer is made. *)
Theorem act_contract (html_optimizer : HTMLOptimizer.t)
    (action_generator : ActionGenerator.t) (request : ActRequest) :
  let reduce :=
    HTMLOptimizer.optimize html_optimizer (req_snapshot_html request)
      (req_start_url request) (Some (req_prompt request)) in
  let generate optimized_html :=
    ActionGenerator.generate_action action_generator (req_prompt request)
      optimized_html (req_step_index request) (req_history request)
      (req_start_url request) in
  (forall optimized_html reply,
     reduce = Ok optimized_html ->
     generate optimized_html = Ok reply ->
     act html_optimizer action_generator request
     = Response200
         (mkActResponse (ActionGenerator.parse_action reply)
            (req_task_id request) (req_step_index request)))
  /\ (forall e,
        exc_is_Exception e = true ->
        reduce = Raise e ->
        act html_optimizer action_generator request
        = HTTPException 500 (py "Error processing action: " ++ exc_str e))
  /\ (forall optimized_html e,
        exc_is_Exception e = true ->
        reduce = Ok optimized_html ->
        generate optimized_html = Raise e ->
        act html_optimizer action_generator request
        = HTTPException 500 (py "Error processing action: " ++ exc_str e))
  /\ (forall e,
        exc_is_Exception e = false ->
        reduce = Raise e
        \/ (exists optimized_html,
              reduce = Ok optimized_html /\ generate optimized_html = Raise e) ->
        act html_optimizer action_generator request = Uncaught e).
Proof.
  intros reduce generate. unfold act, act_try. fold reduce.
  split; [|split; [|split]].
  - intros optimized_html reply R G. rewrite R. cbn [bind].
    fold (generate optimized_html). rewrite G. reflexivity.
  - intros e I R. rewrite R. cbn [bind]. rewrite I. reflexivity.
  - intros optimized_html e I R G. rewrite R. cbn [bind].
    fold (generate optimized_html). rewrite G. cbn [bind]. rewrite I.
    reflexivity.
  - intros e I [R|(optimized_html & R & G)]; rewrite R; cbn [bind].
    + rewrite I. reflexivity.
    + fold (generate optimized_html). rewrite G. cbn [bind]. rewrite I.
      reflexivity.
Qed.

End WithRuntime.
End HandlerFacts.

(** ** Concrete runs *)

Module Runs.
Import ActionGenerator Spec ParserFacts PromptFacts HandlerFacts.

(** A Click reply without a selector: the construction raises and the
    trimmed input comes back. *)
Lemma parse_action_never_raises_run :
  parse_action (rt := Example.runtime) (pyq "  {`type`:`Click`}  ")
  = pyq "{`type`:`Click`}".
Proof.
  rewrite (proj2 (@parse_action_never_raises Example.runtime
                    (pyq "  {`type`:`Click`}  "))
             (JDict [(py "type", JStr (py "Click"))]) ValidationError).
  - vm_compute. reflexivity.
  - vm_compute. reflexivity.
  - left. vm_compute. reflexivity.
Defined.

(** A plain-text reply is trimmed. *)
Lemma non_json_text_is_trimmed_run :
  parse_action (rt := Example.runtime) (py "  click #login-btn  ")
  = py "click #login-btn".
Proof.
  rewrite (proj1 (@non_json_text_is_trimmed Example.runtime)
             (py "  click #login-btn  ")).
  - vm_compute. reflexivity.
  - discriminate.
  - vm_compute. reflexivity.
Defined.

(** A JSON array is trimmed. *)
Lemma non_object_json_is_trimmed_run :
  parse_action (rt := Example.runtime) (py "  [1, 2] ") = py "[1, 2]".
Proof.
  rewrite (proj2 (@non_object_json_is_trimmed Example.runtime
                    (py "  [1, 2] ") (JList [JInt 1; JInt 2])
                    ltac:(discriminate) ltac:(vm_compute; reflexivity)
                    ltac:(discriminate))).
  vm_compute. reflexivity.
Defined.

(** With both keys truthy, [type] is the discriminant. *)
Lemma discriminant_first_truthy_run :
  read_discriminant
    (JDict [(py "type", JStr (py "Click")); (py "action", JStr (py "Wait"))])
  = Ok (JStr (py "Click")).
Proof.
  apply (proj1 (@discriminant_first_truthy Example.runtime
                  (pyq "{`type`:`Click`,`action`:`Wait`}")
                  [(py "type", JStr (py "Click")); (py "action", JStr (py "Wait"))]
                  ltac:(vm_compute; reflexivity))).
  vm_compute. reflexivity.
Defined.

(** C3 as stated fails: an empty [type] is not null, yet the discriminant
    is the value of [action], and the reply is parsed as a Wait. *)
Lemma discriminant_not_first_non_null :
  let text := pyq "{`type`:``,`action`:`Wait`}" in
  let d := [(py "type", JStr []); (py "action", JStr (py "Wait"))] in
  Json.loads text = Some (JDict d)
  /\ first_non_null d = JStr []
  /\ read_discriminant (JDict d) = Ok (JStr (py "Wait"))
  /\ read_discriminant (JDict d) <> Ok (first_non_null d)
  /\ parse_action (rt := Example.runtime) text
     = py "type='WaitAction' selector=None time_seconds=None".
Proof.
  intros text d. split; [|split; [|split; [|split]]].
  - vm_compute. reflexivity.
  - vm_compute. reflexivity.
  - vm_compute. reflexivity.
  - vm_compute. discriminate.
  - vm_compute. reflexivity.
Qed.

(** A Click reply whose selector is an empty object comes back trimmed. *)
Lemma selector_shapes_carry_selector_run :
  parse_action (rt := Example.runtime) (pyq " {`type`:`Click`,`selector`:{}} ")
  = pyq "{`type`:`Click`,`selector`:{}}".
Proof.
  rewrite (proj2 (proj2 (@selector_shapes_carry_selector Example.runtime
                           (pyq " {`type`:`Click`,`selector`:{}} ")
                           (JDict [(py "type", JStr (py "Click"));
                                   (py "selector", JDict [])])
                           ltac:(vm_compute; reflexivity))
                    [(py "type", JStr (py "Click")); (py "selector", JDict [])]
                    (py "ClickAction") eq_refl
                    ltac:(vm_compute; reflexivity)
                    ltac:(vm_compute; reflexivity)
                    ltac:(right; right; exists [], ValidationError;
                          split; vm_compute; reflexivity))).
  vm_compute. reflexivity.
Defined.

(** With a valid selector, [Click] and [ClickAction] give the same
    string. *)
Lemma click_normalization_run :
  parse_action (rt := Example.runtime)
    (pyq "{`type`:`Click`,`selector`:{`type`:`xpathSelector`,`value`:`//a`}}")
  = parse_action (rt := Example.runtime)
      (pyq "{`type`:`ClickAction`,`selector`:{`type`:`xpathSelector`,`value`:`//a`}}").
Proof.
  exact (proj1 (proj2 (proj2 (proj2 (proj2
           (@click_normalization Example.runtime
              (pyq "{`type`:`Click`,`selector`:{`type`:`xpathSelector`,`value`:`//a`}}")
              (pyq "{`type`:`ClickAction`,`selector`:{`type`:`xpathSelector`,`value`:`//a`}}")
              [(py "type", JStr (py "xpathSelector")); (py "value", JStr (py "//a"))]
              (mkSelector XPATH_SELECTOR None (py "//a"))
              ltac:(vm_compute; reflexivity) ltac:(vm_compute; reflexivity)
              ltac:(vm_compute; reflexivity))))))).
Defined.

(** C6 as stated fails: with a selector object from which no [Selector]
    can be constructed, each input comes back as it is, and the two
    differ. *)
Lemma click_normalization_needs_valid_selector :
  let text1 := pyq "{`type`:`Click`,`selector`:{}}" in
  let text2 := pyq "{`type`:`ClickAction`,`selector`:{}}" in
  Json.loads text1
    = Some (JDict [(py "type", JStr (py "Click")); (py "selector", JDict [])])
  /\ Json.loads text2
     = Some (JDict [(py "type", JStr (py "ClickAction")); (py "selector", JDict [])])
  /\ parse_action (rt := Example.runtime) text1 = text1
  /\ parse_action (rt := Example.runtime) text2 = text2
  /\ parse_action (rt := Example.runtime) text1
     <> parse_action (rt := Example.runtime) text2.
Proof.
  intros text1 text2. split; [|split; [|split; [|split]]].
  - vm_compute. reflexivity.
  - vm_compute. reflexivity.
  - vm_compute. reflexivity.
  - vm_compute. reflexivity.
  - vm_compute. discriminate.
Qed.

(** A history of two entries without line feeds, the first with a
    result: the rendered text has three lines, two of them step lines. *)
Lemma history_formatting_run :
  let history :=
    [ mkEntry (py "navigate https://example.com") (Some (py "Page loaded"));
      mkEntry (py "click #login-btn") None ] in
  let rendered :=
    _format_history (rt := Example.runtime) (List.map entry_dict history) in
  split_lines rendered
  = [ py "Step 1: navigate https://example.com";
      py "  Result: Page loaded";
      py "Step 2: click #login-btn" ]
  /\ List.length
       (filter (fun line => startswith line (py "Step ")) (split_lines rendered))
     = 2%nat.
Proof.
  intros history rendered. subst history rendered.
  pose proof (proj2 (proj2 (@history_formatting Example.runtime))
                (mkEntry (py "navigate https://example.com")
                   (Some (py "Page loaded")))
                [mkEntry (py "click #login-btn") None] eq_refl)
    as (L & _ & N).
  split; [rewrite L; vm_compute; reflexivity | exact N].
Defined.

(** C7 as stated fails: an action with a line feed in it renders, for a
    history of one entry, two lines that start with [Step ]; and an entry
    without a result renders a line [  Result: done]. *)
Lemma history_formatting_fails_with_line_feed :
  let history :=
    [ mkEntry (py "click #a" ++ [10] ++ py "Step 7: drop table") None ] in
  let rendered :=
    _format_history (rt := Example.runtime) (List.map entry_dict history) in
  List.length history = 1%nat
  /\ forallb single_line history = false
  /\ split_lines rendered = [ py "Step 1: click #a"; py "Step 7: drop table" ]
  /\ List.length
       (filter (fun line => startswith line (py "Step ")) (split_lines rendered))
     = 2%nat
  /\ split_lines
       (_format_history (rt := Example.runtime)
          (List.map entry_dict
             [ mkEntry (py "click" ++ [10] ++ py "  Result: done") None ]))
     = [ py "Step 1: click"; py "  Result: done" ].
Proof.
  intros history rendered. repeat split; vm_compute; reflexivity.
Qed.


(** The optimizer and the generator trim the replies of their models. *)
Lemma orchestrators_return_trimmed_reply_run :
  HTMLOptimizer.optimize (rt := Example.runtime)
    (Example.html_optimizer (Example.replying (py "  <html></html>  ")))
    (py "<html> </html>") (py "https://example.com") None
  = Ok (py "<html></html>")
  /\ generate_action (rt := Example.runtime)
       (Example.action_generator (Example.replying (py "   click #button   ")))
       (py "Click button") (py "<html></html>") 0 [] (py "https://example.com")
     = Ok (py "click #button").
Proof.
  split.
  - destruct (proj1 (@orchestrators_return_trimmed_reply Example.runtime)
                (Example.html_optimizer (Example.replying (py "  <html></html>  ")))
                (py "<html> </html>") (py "https://example.com") None)
      as (prompt & _ & H & _).
    rewrite (H (py "  <html></html>  ") eq_refl). vm_compute. reflexivity.
  - destruct (proj2 (@orchestrators_return_trimmed_reply Example.runtime)
                (Example.action_generator (Example.replying (py "   click #button   ")))
                (py "Click button") (py "<html></html>") 0%Z []
                (py "https://example.com"))
      as (prompt & _ & H & _).
    rewrite (H (py "   click #button   ") eq_refl). vm_compute. reflexivity.
Defined.

(** The end-to-end example: a Click on an XPath is answered with 200 and
    the request's identifiers; a failing reducer is answered with 500. *)
Lemma act_contract_run :
  Main.act (rt := Example.runtime)
    (Example.html_optimizer
       (Example.replying
          (py "<html><body><button id='b'>Go</button></body></html>")))
    (Example.action_generator
       (Example.replying
          (pyq "{`action`:`ClickAction`,`selector`:{`type`:`xpathSelector`,`value`:`//button[@id=\`b\`]`}}")))
    Example.request
  = Main.Response200
      (Main.mkActResponse
         (pyq "type='ClickAction' selector=Selector(type=<SelectorType.XPATH_SELECTOR: 'xpathSelector'>, attribute=None, value='//button[@id=`b`]')")
         (py "task_123") 0)
  /\ Main.act (rt := Example.runtime)
       (Example.html_optimizer (Example.failing (py "LLM API error")))
       (Example.action_generator (Example.replying (py "click #login-btn")))
       Example.request
     = Main.HTTPException 500 (py "Error processing action: LLM API error").
Proof.
  split.
  - rewrite (proj1 (@act_contract Example.runtime
                      (Example.html_optimizer
                         (Example.replying
                            (py "<html><body><button id='b'>Go</button></body></html>")))
                      (Example.action_generator
                         (Example.replying
                            (pyq "{`action`:`ClickAction`,`selector`:{`type`:`xpathSelector`,`value`:`//button[@id=\`b\`]`}}")))
                      Example.request)
               (py "<html><body><button id='b'>Go</button></body></html>")
               (pyq "{`action`:`ClickAction`,`selector`:{`type`:`xpathSelector`,`value`:`//button[@id=\`b\`]`}}")
               ltac:(vm_compute; reflexivity) ltac:(vm_compute; reflexivity)).
    vm_compute. reflexivity.
  - rewrite (proj1 (proj2 (@act_contract Example.runtime
                             (Example.html_optimizer
                                (Example.failing (py "LLM API error")))
                             (Example.action_generator
                                (Example.replying (py "click #login-btn")))
                             Example.request))
               (mkExc (py "Exception") (py "LLM API error"))
               eq_refl ltac:(vm_compute; reflexivity)).
    vm_compute. reflexivity.
Defined.

(** C2 as stated fails: a reduction that is cancelled raises an exception
    that is no instance of [Exception]; the handler does not catch it, and
    no 500 answer is made. *)
Lemma act_does_not_catch_cancellation :
  let e := mkBaseExc (py "CancelledError") [] false in
  let html_optimizer := Example.html_optimizer Example.cancelled in
  let action_generator :=
    Example.action_generator (Example.replying (py "click #login-btn")) in
  HTMLOptimizer.optimize (rt := Example.runtime) html_optimizer
    (Main.req_snapshot_html Example.request)
    (Main.req_start_url Example.request)
    (Some (Main.req_prompt Example.request))
  = Raise e
  /\ Main.act (rt := Example.runtime) html_optimizer action_generator
       Example.request
     = Main.Uncaught e
  /\ Main.act (rt := Example.runtime) html_optimizer action_generator
       Example.request
     <> Main.HTTPException 500 (py "Error processing action: " ++ exc_str e).
Proof.
  intros e html_optimizer action_generator. split; [|split].
  - vm_compute. reflexivity.
  - vm_compute. reflexivity.
  - vm_compute. discriminate.
Qed.

End Runs.

(* ================================================================= *)
(** * Further properties of the code *)

(** ** The parser *)

Module ParserMore.
Import ActionGenerator Spec More ParserFacts.

Section WithRuntime.
Context {rt : PyRuntime}.

Lemma normalize_ends (s : str) : endswith (normalize s) (py "Action") = true.
Proof.
  unfold normalize. destruct (endswith s (py "Action")) eqn:E; simpl.
  - exact E.
  - apply endswith_app.
Qed.

Lemma read_action_type_inv (data : JSON) (t : str) :
  read_action_type data = Ok t ->
  exists d s,
    data = JDict d /\ read_discriminant data = Ok (JStr s) /\ s <> []
    /\ t = normalize s.
Proof.
  unfold read_action_type. intros H.
  destruct data; try discriminate H.
  destruct (read_discriminant (JDict d)) as [v|e] eqn:R; [|discriminate H].
  simpl in H. destruct v; simpl in H; try discriminate H.
  - destruct b; discriminate H.
  - destruct (negb (negb (Z.eqb z 0))); discriminate H.
  - destruct (negb (negb (float_is_zero f))); discriminate H.
  - destruct s as [|c s]; [discriminate H|]. simpl in H. injection H as <-.
    exists d, (c :: s). repeat split; congruence.
  - destruct l; discriminate H.
  - destruct d0; discriminate H.
Qed.

Lemma construct_type (data : JSON) (t : str) (sel : option Selector) (obj : Action) :
  construct data t sel = Ok obj -> Action_type obj = t.
Proof.
  unfold construct, ClickAction_init, NavigateAction_init, TypeAction_init,
    SelectAction_init, WaitAction_init, BaseAction_init, validate_Selector,
    validate_str, validate_optional_str, get, bind.
  intros H. break_hyps.
  all: repeat match goal with
         | E : Ok _ = Ok _ |- _ => injection E as <-
         end.
  all: reflexivity.
Qed.

(** X1. Whenever a shape is built, the decoded value is an object whose
    discriminant is a non-empty string, the shape's [type] is that string
    normalised, and it ends in [Action]. *)
Theorem built_shape_tag (data : JSON) (obj : Action) :
  build_action data = Ok obj ->
  exists d s,
    data = JDict d
    /\ read_discriminant data = Ok (JStr s)
    /\ s <> []
    /\ Action_type obj = normalize s
    /\ endswith (Action_type obj) (py "Action") = true.
Proof.
  unfold build_action. intros H.
  destruct (read_action_type data) as [t|e] eqn:T; [|discriminate H].
  destruct (read_selector data) as [sel|e] eqn:S; [|discriminate H].
  simpl in H. apply construct_type in H.
  apply read_action_type_inv in T as (d & s & D & R & N & ->).
  exists d, s. rewrite H. repeat split; try assumption.
  apply normalize_ends.
Qed.

Lemma eqb_false_of_not_in (k key : str) (keys : list str) :
  ~ In k keys -> In key keys -> Str.eqb k key = false.
Proof.
  intros N I. destruct (Str.eqb k key) eqn:E; [|reflexivity].
  apply StrFacts.eqb_eq in E. subst. contradiction.
Qed.

Lemma eqb_sym (a b : str) : Str.eqb a b = Str.eqb b a.
Proof.
  destruct (Str.eqb a b) eqn:E1, (Str.eqb b a) eqn:E2; try reflexivity.
  - apply StrFacts.eqb_eq in E1. subst. rewrite StrFacts.eqb_refl in E2.
    discriminate.
  - apply StrFacts.eqb_eq in E2. subst. rewrite StrFacts.eqb_refl in E1.
    discriminate.
Qed.

(** *** Unknown discriminants *)

(** X2. A discriminant that is a non-empty string and, once normalised,
    none of the five known names never makes the parser fall back by
    itself: with a selector that is absent or valid, the reply is rendered
    as the generic shape, which carries the normalised discriminant and
    the selector. *)
Theorem unknown_discriminant_is_rendered (action_text : str) (d : dict)
    (s : str) (sel : option Selector) :
  Json.loads action_text = Some (JDict d) ->
  read_discriminant (JDict d) = Ok (JStr s) ->
  s <> [] ->
  ~ In (normalize s) known_types ->
  read_selector (JDict d) = Ok sel ->
  parse_action action_text
  = Action_str (ABase (mkBaseAction (normalize s) sel)).
Proof.
  intros L R N U S.
  rewrite (parse_action_loaded _ L).
  unfold parse_action_try, build_action, read_action_type.
  rewrite R. destruct s as [|c s]; [congruence|].
  cbn [bind truthy negb]. rewrite S. cbn [bind].
  unfold construct.
  assert (E : forall key, In key known_types ->
                          Str.eqb (normalize (c :: s)) key = false)
    by (intros key I; eapply eqb_false_of_not_in; eassumption).
  rewrite !E by (unfold known_types; simpl; tauto).
  reflexivity.
Qed.

(** *** The selector *)

(** X3. A [selector] that is an object from which no [Selector] can be
    constructed makes the parser return the trimmed input whatever the
    discriminant is, also for the shapes that carry no selector. *)
Theorem invalid_selector_object_falls_back (action_text : str) (d kwargs : dict)
    (e : ExcClass) :
  Json.loads action_text = Some (JDict d) ->
  dict_find d (py "selector") = Some (JDict kwargs) ->
  Selector_init kwargs = Raise e ->
  parse_action action_text = strip action_text.
Proof.
  intros L F S.
  rewrite (parse_action_loaded _ L).
  unfold parse_action_try, build_action.
  destruct (read_action_type (JDict d)) as [t|e1]; [|reflexivity].
  cbn [bind]. unfold read_selector, get. cbn [bind]. unfold dict_get.
  rewrite F, S. reflexivity.
Qed.

Lemma known_type_values :
  py "NavigateAction" <> py "ClickAction"
  /\ py "WaitAction" <> py "ClickAction"
  /\ py "WaitAction" <> py "NavigateAction"
  /\ py "NavigateAction" <> py "TypeAction"
  /\ py "WaitAction" <> py "TypeAction"
  /\ py "NavigateAction" <> py "SelectAction"
  /\ py "WaitAction" <> py "SelectAction".
Proof. repeat split; intros H; vm_compute in H; discriminate H. Qed.

(** X4. A Navigate or Wait shape never carries a selector: a valid
    [selector] in the reply is validated and then dropped. *)
Theorem navigate_and_wait_drop_selector (data : JSON) (obj : Action) :
  build_action data = Ok obj ->
  Action_type obj = py "NavigateAction" \/ Action_type obj = py "WaitAction" ->
  action_selector_of obj = None.
Proof.
  unfold build_action. intros H K.
  destruct (read_action_type data) as [t|e] eqn:T; [|discriminate H].
  destruct (read_selector data) as [sel|e] eqn:S; [|discriminate H].
  cbn [bind] in H. assert (Ty := H). apply construct_type in Ty.
  rewrite Ty in K.
  destruct known_type_values as (K1 & K2 & K3 & K4 & K5 & K6 & K7).
  unfold construct, ClickAction_init, NavigateAction_init, TypeAction_init,
    SelectAction_init, WaitAction_init, BaseAction_init, validate_Selector,
    validate_str, validate_optional_str, get, bind in H.
  destruct (Str.eqb t (py "ClickAction")) eqn:E1;
    [apply StrFacts.eqb_eq in E1; destruct K; congruence|].
  destruct (Str.eqb t (py "NavigateAction")) eqn:E2.
  { break_hyps;
      repeat match goal with
             | E : Ok _ = Ok _ |- _ => injection E as E
             end;
      subst; reflexivity. }
  destruct (Str.eqb t (py "TypeAction")) eqn:E3;
    [apply StrFacts.eqb_eq in E3; destruct K; congruence|].
  destruct (Str.eqb t (py "SelectAction")) eqn:E4;
    [apply StrFacts.eqb_eq in E4; destruct K; congruence|].
  destruct (Str.eqb t (py "WaitAction")) eqn:E5.
  { break_hyps;
      repeat match goal with
             | E : Ok _ = Ok _ |- _ => injection E as E
             end;
      subst; reflexivity. }
  destruct K as [K|K]; subst t;
    rewrite StrFacts.eqb_refl in *; discriminate.
Qed.

(** *** The payload of Type and Select *)

Lemma parse_with_type (action_text : str) (d : dict) (t : str)
    (sel : option Selector) :
  Json.loads action_text = Some (JDict d) ->
  read_action_type (JDict d) = Ok t ->
  read_selector (JDict d) = Ok sel ->
  parse_action action_text =
  match construct (JDict d) t sel with
  | Ok obj => Action_str obj
  | Raise _ => strip action_text
  end.
Proof.
  intros L T S. rewrite (parse_action_loaded _ L).
  unfold parse_action_try, build_action. rewrite T, S. cbn [bind].
  destruct (construct (JDict d) t sel); reflexivity.
Qed.

(** X5. For a Type reply with a valid selector: when [text] is absent
    the shape has the empty text; when it is a string the shape has that
    string; when it is there and not a string (null included) the parser
    returns the trimmed input.  The same holds for a Select reply and its
    [value]. *)
Theorem type_and_select_payload (action_text : str) (d : dict) (sel : Selector) :
  Json.loads action_text = Some (JDict d) ->
  read_selector (JDict d) = Ok (Some sel) ->
  (read_action_type (JDict d) = Ok (py "TypeAction") ->
   (dict_find d (py "text") = None ->
    parse_action action_text
    = Action_str (AType (mkTypeAction (py "TypeAction") sel [])))
   /\ (forall s, dict_find d (py "text") = Some (JStr s) ->
       parse_action action_text
       = Action_str (AType (mkTypeAction (py "TypeAction") sel s)))
   /\ (forall v, dict_find d (py "text") = Some v ->
       (forall s, v <> JStr s) ->
       parse_action action_text = strip action_text))
  /\
  (read_action_type (JDict d) = Ok (py "SelectAction") ->
   (dict_find d (py "value") = None ->
    parse_action action_text
    = Action_str (ASelect (mkSelectAction (py "SelectAction") sel [])))
   /\ (forall s, dict_find d (py "value") = Some (JStr s) ->
       parse_action action_text
       = Action_str (ASelect (mkSelectAction (py "SelectAction") sel s)))
   /\ (forall v, dict_find d (py "value") = Some v ->
       (forall s, v <> JStr s) ->
       parse_action action_text = strip action_text)).
Proof.
  intros L S. split; intros T; rewrite (@parse_with_type _ _ _ _ L T S);
    unfold construct, get, dict_get; cbn -[dict_find Action_str strip];
    (split; [|split]).
  - intros F. rewrite F. reflexivity.
  - intros s F. rewrite F. reflexivity.
  - intros v F NS. rewrite F.
    destruct v; try reflexivity. exfalso. eapply NS. reflexivity.
  - intros F. rewrite F. reflexivity.
  - intros s F. rewrite F. reflexivity.
  - intros v F NS. rewrite F.
    destruct v; try reflexivity. exfalso. eapply NS. reflexivity.
Qed.

(** *** Keys that are not read *)

Lemma dict_find_set_same (d : dict) (k : str) (v : JSON) :
  dict_find (dict_set d k v) k = Some v.
Proof.
  induction d as [|[k0 v0] d IH]; simpl.
  - rewrite StrFacts.eqb_refl. reflexivity.
  - destruct (Str.eqb k0 k) eqn:E; simpl; rewrite E; [reflexivity|exact IH].
Qed.

Lemma dict_find_set_other (d : dict) (k k' : str) (v : JSON) :
  Str.eqb k k' = false ->
  dict_find (dict_set d k v) k' = dict_find d k'.
Proof.
  intros N. induction d as [|[k0 v0] d IH]; simpl.
  - rewrite N. reflexivity.
  - destruct (Str.eqb k0 k) eqn:E; simpl.
    + apply StrFacts.eqb_eq in E. subst k0. rewrite N. reflexivity.
    + rewrite IH. reflexivity.
Qed.

Lemma dict_get_set_other (d : dict) (k k' : str) (v default : JSON) :
  Str.eqb k k' = false ->
  dict_get (dict_set d k v) k' default = dict_get d k' default.
Proof.
  intros N. unfold dict_get. rewrite dict_find_set_other by exact N.
  reflexivity.
Qed.

(** X6. Setting, in the decoded object, a key that [parse_action] does
    not read (any key other than [type], [action], [selector], [url],
    [text], [value] and [time_seconds]) changes neither the shape that is
    built nor the exception that is raised. *)
Theorem unread_keys_are_ignored (d : dict) (k : str) (v : JSON) :
  ~ In k read_keys ->
  build_action (JDict (dict_set d k v)) = build_action (JDict d).
Proof.
  intros N.
  unfold build_action, read_action_type, read_discriminant, read_selector,
    construct, get.
  cbn [bind].
  assert (E : forall key, In key read_keys -> Str.eqb k key = false)
    by (intros key I; eapply eqb_false_of_not_in; eassumption).
  rewrite !dict_get_set_other by (apply E; unfold read_keys; simpl; tauto).
  reflexivity.
Qed.

(** X7. When the value of [type] is truthy, the value of [action] is
    never used: setting it changes neither the shape that is built nor the
    exception that is raised. *)
Theorem action_key_unused_when_type_truthy (d : dict) (v : JSON) :
  truthy (dict_get d (py "type") JNull) = true ->
  build_action (JDict (dict_set d (py "action") v)) = build_action (JDict d).
Proof.
  intros T.
  unfold build_action, read_action_type, read_discriminant, read_selector,
    construct, get.
  cbn [bind].
  rewrite dict_get_set_other with (k' := py "type")
    by (vm_compute; reflexivity).
  rewrite T. cbn [bind].
  rewrite !dict_get_set_other by (vm_compute; reflexivity).
  reflexivity.
Qed.

(** *** Which selectors are accepted *)

Lemma validate_SelectorType_value (t : SelectorType) :
  validate_SelectorType (JStr (SelectorType_value t)) = Ok t.
Proof. destruct t; vm_compute; reflexivity. Qed.

Lemma validate_SelectorType_inv (v : JSON) (t : SelectorType) :
  validate_SelectorType v = Ok t -> v = JStr (SelectorType_value t).
Proof.
  unfold validate_SelectorType. intros H.
  destruct v; try discriminate H.
  break_hyps; injection H as <-;
    match goal with
    | E : Str.eqb _ _ = true |- _ => apply StrFacts.eqb_eq in E; congruence
    end.
Qed.

(** X8. A [Selector] is constructed from the keywords of an object
    exactly when [type] is one of the three selector kinds, [value] is a
    string and [attribute] is absent, null or a string; the fields of the
    selector are then those values, and every other key is ignored. *)
Theorem selector_accepted_iff (kwargs : dict) (t : SelectorType)
    (a : option str) (x : str) :
  Selector_init kwargs = Ok (mkSelector t a x) <->
  dict_find kwargs (py "type") = Some (JStr (SelectorType_value t))
  /\ dict_find kwargs (py "value") = Some (JStr x)
  /\ match dict_find kwargs (py "attribute") with
     | None | Some JNull => a = None
     | Some (JStr s) => a = Some s
     | Some _ => False
     end.
Proof.
  unfold Selector_init, required, validate_str, validate_optional_str,
    dict_get, bind.
  split.
  - intros H.
    destruct (dict_find kwargs (py "type")) as [vt|]; [|discriminate H].
    destruct (validate_SelectorType vt) as [t'|] eqn:VT; [|discriminate H].
    apply validate_SelectorType_inv in VT. subst vt.
    destruct (dict_find kwargs (py "attribute")) as [va|];
      [destruct va; try discriminate H|];
      (destruct (dict_find kwargs (py "value")) as [vx|]; [|discriminate H]);
      (destruct vx; try discriminate H);
      injection H as <- <- <-; repeat split; reflexivity.
  - intros (T & V & A). rewrite T, V, validate_SelectorType_value.
    destruct (dict_find kwargs (py "attribute")) as [va|];
      [destruct va; try contradiction|]; subst a; reflexivity.
Qed.

End WithRuntime.
End ParserMore.

(** ** [str.strip] *)

Module StripFacts.
Import More.

Lemma lstrip_head (s : str) (c : N) (r : str) :
  lstrip s = c :: r -> isspace c = false.
Proof.
  induction s as [|x s IH]; simpl; [discriminate|].
  destruct (isspace x) eqn:E; [exact IH|].
  intros H. injection H as <- _. exact E.
Qed.

Lemma lstrip_suffix (s : str) :
  exists w, s = w ++ lstrip s /\ forallb isspace w = true.
Proof.
  induction s as [|x s (w & E & W)]; simpl.
  - exists []. split; reflexivity.
  - destruct (isspace x) eqn:X.
    + exists (x :: w). split; [simpl; congruence|]. simpl. rewrite X. exact W.
    + exists []. split; reflexivity.
Qed.

Lemma lstrip_fixed (s : str) :
  (forall c r, s = c :: r -> isspace c = false) -> lstrip s = s.
Proof.
  destruct s as [|x s]; [reflexivity|].
  intros H. simpl. rewrite (H x s eq_refl). reflexivity.
Qed.

Lemma lstrip_spaces (w : str) : forallb isspace w = true -> lstrip w = [].
Proof.
  induction w as [|x w IH]; simpl; [reflexivity|].
  intros H. apply andb_true_iff in H as [X W]. rewrite X. exact (IH W).
Qed.

Lemma rstrip_last (s : str) (c : N) (r : str) :
  rstrip s = r ++ [c] -> isspace c = false.
Proof.
  unfold rstrip. intros H.
  apply (f_equal (@rev N)) in H. rewrite rev_involutive, rev_app_distr in H.
  simpl in H. eapply lstrip_head. exact H.
Qed.

Lemma rstrip_prefix (s : str) : exists w, s = rstrip s ++ w.
Proof.
  unfold rstrip. destruct (lstrip_suffix (rev s)) as (w & E & _).
  exists (rev w). rewrite <- rev_app_distr, <- E, rev_involutive. reflexivity.
Qed.

Lemma rstrip_fixed (s : str) :
  (forall c r, s = r ++ [c] -> isspace c = false) -> rstrip s = s.
Proof.
  intros H. unfold rstrip. rewrite lstrip_fixed; [apply rev_involutive|].
  intros c r E. apply (H c (rev r)).
  rewrite <- (rev_involutive s), E. reflexivity.
Qed.

Lemma strip_trimmed (s : str) : trimmed (strip s).
Proof.
  unfold trimmed, strip. split.
  - intros c r E. destruct (rstrip_prefix (lstrip s)) as (w & P).
    rewrite E in P. simpl in P. eapply lstrip_head. exact P.
  - intros c r E. eapply rstrip_last. exact E.
Qed.

Lemma strip_fixed (s : str) : trimmed s -> strip s = s.
Proof.
  intros [H T]. unfold strip. rewrite (lstrip_fixed H). apply rstrip_fixed.
  exact T.
Qed.

Lemma strip_idempotent (s : str) : strip (strip s) = strip s.
Proof. apply strip_fixed, strip_trimmed. Qed.

Lemma strip_spaces (w : str) : forallb isspace w = true -> strip w = [].
Proof. intros H. unfold strip. rewrite (lstrip_spaces _ H). reflexivity. Qed.

End StripFacts.

(** ** Prompts and the history transcript *)

Module PromptMore.
Import ActionGenerator Spec More PromptFacts.

Section WithRuntime.
Context {rt : PyRuntime}.

Lemma previous_actions_text (history : list dict) :
  match _format_history history with
  | [] => py "No previous actions"
  | _ :: _ => _format_history history
  end
  = match history with
    | [] => py "No previous actions"
    | _ :: _ => _format_history history
    end.
Proof.
  destruct history as [|entry rest]; [reflexivity|].
  rewrite format_history_raw.
  destruct (transcript_head 1 entry rest) as (t & ->). reflexivity.
Qed.

(** X9. The generation prompt is the template with the task, the URL,
    the step index in decimal, the history text and the reduced HTML put
    under their headings as they are, in that order; the text before and
    after does not depend on them, and no placeholder inside a value is
    expanded.  The history text is the sentinel exactly when the history is
    empty: a history that is not empty never formats to the empty
    string. *)
Theorem action_prompt_layout :
  exists head tail : str,
    forall (self : ActionGenerator.t) (prompt optimized_html : str)
           (step_index : Z) (history : list dict) (url : str),
      _build_action_prompt self prompt optimized_html step_index history url
      = Ok (head
            ++ py "Task:" ++ [10] ++ prompt ++ [10; 10]
            ++ py "Current URL:" ++ [10] ++ url ++ [10; 10]
            ++ py "Step:" ++ [10] ++ of_int step_index ++ [10; 10]
            ++ py "Previous Actions:" ++ [10]
            ++ match history with
               | [] => py "No previous actions"
               | _ :: _ => _format_history history
               end ++ [10; 10]
            ++ py "Current Page HTML (optimized):" ++ [10]
            ++ optimized_html ++ tail)
      /\ (history <> [] -> _format_history history <> []).
Proof.
  exists (slice WEB_ACTION_GENERATOR_PROMPT 0 282),
         (slice WEB_ACTION_GENERATOR_PROMPT 416 2971).
  intros self prompt optimized_html step_index history url. split.
  - unfold _build_action_prompt. cbv zeta.
    rewrite previous_actions_text, action_prompt_render.
    generalize (of_int step_index). intros step.
    destruct history as [|entry rest].
    + apply f_equal. repeat rewrite <- app_assoc. vm_compute. reflexivity.
    + generalize (_format_history (entry :: rest)). intros prev.
      apply f_equal. repeat rewrite <- app_assoc. vm_compute. reflexivity.
  - destruct history as [|entry rest]; [congruence|]. intros _.
    rewrite format_history_raw.
    destruct (transcript_head 1 entry rest) as (t & ->). discriminate.
Qed.

(** X10. The optimisation prompt is the template with the URL and the
    raw HTML put under their headings as they are; the text before and
    after does not depend on them.  A task context that is [None] or empty
    leaves the HTML alone; one that is not empty is put before the HTML as
    a labelled block. *)
Theorem optimization_prompt_layout :
  exists head tail : str,
    forall (self : HTMLOptimizer.t) (html url : str)
           (task_context : option str),
      HTMLOptimizer._build_optimization_prompt self html url task_context
      = Ok (head ++ py "Input URL:" ++ [10] ++ url ++ [10; 10]
            ++ py "Raw HTML:" ++ [10]
            ++ match task_context with
               | Some (c :: context) =>
                   py "Task Context:" ++ [10] ++ (c :: context) ++ [10; 10]
                   ++ html
               | _ => html
               end ++ tail).
Proof.
  exists (slice HTML_OPTIMIZER_PROMPT 0 267),
         (slice HTML_OPTIMIZER_PROMPT 303 2450).
  intros self html url task_context.
  unfold HTMLOptimizer._build_optimization_prompt.
  rewrite optimizer_prompt_render.
  destruct task_context as [[|c context]|].
  - apply f_equal. repeat rewrite <- app_assoc. vm_compute. reflexivity.
  - generalize (py "Task Context:" ++ [10] ++ (c :: context) ++ [10; 10] ++ html).
    intros raw. apply f_equal. repeat rewrite <- app_assoc.
    vm_compute. reflexivity.
  - apply f_equal. repeat rewrite <- app_assoc. vm_compute. reflexivity.
Qed.

(** *** How many lines a history gives *)

Lemma raw_transcript_length (history : list dict) :
  forall k,
    List.length (raw_transcript k history)
    = (List.length history
       + List.length (filter has_result_line history))%nat.
Proof.
  induction history as [|entry history IH]; intros k; [reflexivity|].
  cbn [raw_transcript filter]. rewrite length_app, IH.
  unfold raw_entry_lines, has_result_line.
  destruct (truthy (dict_get entry (py "result") (JStr []))); simpl; lia.
Qed.

Lemma raw_transcript_step (history : list dict) :
  forall (k : N) (i : nat) (entry : dict),
    nth_error history i = Some entry ->
    In (py "Step " ++ digits (k + N.of_nat i) ++ py ": "
        ++ py_str (dict_get entry (py "action") (JStr (py "unknown"))))
       (raw_transcript k history).
Proof.
  induction history as [|e history IH]; intros k i entry H.
  - destruct i; discriminate H.
  - cbn [raw_transcript]. apply in_or_app. destruct i as [|i].
    + injection H as ->. left. unfold raw_entry_lines. left.
      rewrite N.add_0_r. reflexivity.
    + right. replace (k + N.of_nat (S i)) with (k + 1 + N.of_nat i) by lia.
      apply IH. exact H.
Qed.

(** X11. The list of lines that [_format_history] joins has one line
    per entry plus one for each entry whose result is truthy, so between N
    and 2N lines for N entries; the entry at position i (from 0) gives the
    line [Step i+1: action], whatever the results before it are, with
    [unknown] for an entry without [action]. *)
Theorem history_line_count (history : list dict) :
  let formatted := snd (fold_left format_entry history (1, [])) in
  List.length formatted
  = (List.length history + List.length (filter has_result_line history))%nat
  /\ (List.length history <= List.length formatted
      <= 2 * List.length history)%nat
  /\ (forall i entry,
        nth_error history i = Some entry ->
        In (py "Step " ++ digits (N.of_nat (S i)) ++ py ": "
            ++ py_str (dict_get entry (py "action") (JStr (py "unknown"))))
           formatted).
Proof.
  intros formatted. unfold formatted. rewrite fold_format_entry. cbn [snd app].
  pose proof (raw_transcript_length history 1) as L.
  pose proof (filter_length_le has_result_line history) as F.
  split; [exact L|]. split; [lia|].
  intros i entry H.
  replace (N.of_nat (S i)) with (1 + N.of_nat i) by lia.
  apply raw_transcript_step. exact H.
Qed.

End WithRuntime.
End PromptMore.

(** ** The orchestrators and the handler, end to end *)

Module HandlerMore.
Import Main More StripFacts HandlerFacts.

Section WithRuntime.
Context {rt : PyRuntime}.

Lemma optimize_inv (self : HTMLOptimizer.t) (html url : str)
    (task_context : option str) (r : str) :
  HTMLOptimizer.optimize self html url task_context = Ok r ->
  exists reply, r = strip reply.
Proof.
  unfold HTMLOptimizer.optimize.
  destruct (optimization_prompt_ok self html url task_context) as (p & ->).
  cbn [bind]. destruct (generate _ _ _ _ _ _) as [reply|e]; cbn [bind].
  - intros H. injection H as <-. exists reply. reflexivity.
  - discriminate.
Qed.

Lemma generate_action_inv (self : ActionGenerator.t)
    (prompt optimized_html : str) (step_index : Z) (history : list dict)
    (url : str) (r : str) :
  ActionGenerator.generate_action self prompt optimized_html step_index
    history url = Ok r ->
  exists reply, r = strip reply.
Proof.
  unfold ActionGenerator.generate_action.
  destruct (action_prompt_ok self prompt optimized_html step_index history url)
    as (p & ->).
  cbn [bind]. destruct (generate _ _ _ _ _ _) as [reply|e]; cbn [bind].
  - intros H. injection H as <-. exists reply. reflexivity.
  - discriminate.
Qed.

(** X12. Whatever the chat model replies, a result of [optimize] or of
    [generate_action] neither starts nor ends with a whitespace character,
    and trimming it again changes nothing. *)
Theorem orchestrator_results_are_trimmed :
  (forall (self : HTMLOptimizer.t) (html url : str)
          (task_context : option str) (r : str),
     HTMLOptimizer.optimize self html url task_context = Ok r ->
     trimmed r /\ strip r = r)
  /\ (forall (self : ActionGenerator.t) (prompt optimized_html : str)
             (step_index : Z) (history : list dict) (url : str) (r : str),
        ActionGenerator.generate_action self prompt optimized_html step_index
          history url = Ok r ->
        trimmed r /\ strip r = r).
Proof.
  split.
  - intros self html url task_context r H.
    apply optimize_inv in H as (reply & ->).
    split; [apply strip_trimmed | apply strip_idempotent].
  - intros self prompt optimized_html step_index history url r H.
    apply generate_action_inv in H as (reply & ->).
    split; [apply strip_trimmed | apply strip_idempotent].
Qed.

(** X13. The handler end to end, in terms of the two chat models.  The
    optimisation prompt is built from the snapshot, the start URL and the
    task.  If the reduction model raises on it, whatever the generator is,
    the answer is 500 when the exception is an instance of [Exception], and
    otherwise the exception leaves the handler.  If it replies, the
    generation prompt is built with the trimmed reply as the reduced HTML;
    if the generation model raises on that prompt the answer is 500, or the
    exception leaves the handler, in the same way; and if it replies the
    answer is 200 with [parse_action] of the trimmed reply and the
    identifiers of the request. *)
Theorem act_pipeline (html_optimizer : HTMLOptimizer.t)
    (action_generator : ActionGenerator.t) (request : ActRequest) :
  let failure e :=
    if exc_is_Exception e
    then HTTPException 500 (py "Error processing action: " ++ exc_str e)
    else Uncaught e in
  exists optimization_prompt,
    HTMLOptimizer._build_optimization_prompt html_optimizer
      (req_snapshot_html request) (req_start_url request)
      (Some (req_prompt request))
    = Ok optimization_prompt
    /\ (forall e,
          html_optimization_llm (HTMLOptimizer.llm_client html_optimizer)
            optimization_prompt = Raise e ->
          act html_optimizer action_generator request = failure e)
    /\ (forall reduced,
          html_optimization_llm (HTMLOptimizer.llm_client html_optimizer)
            optimization_prompt = Ok reduced ->
          exists action_prompt,
            ActionGenerator._build_action_prompt action_generator
              (req_prompt request) (strip reduced) (req_step_index request)
              (req_history request) (req_start_url request)
            = Ok action_prompt
            /\ (forall e,
                  action_generation_llm
                    (ActionGenerator.llm_client action_generator)
                    action_prompt = Raise e ->
                  act html_optimizer action_generator request = failure e)
            /\ (forall reply,
                  action_generation_llm
                    (ActionGenerator.llm_client action_generator)
                    action_prompt = Ok reply ->
                  act html_optimizer action_generator request
                  = Response200
                      (mkActResponse
                         (ActionGenerator.parse_action (strip reply))
                         (req_task_id request) (req_step_index request)))).
Proof.
  intros failure.
  destruct (optimization_prompt_ok html_optimizer (req_snapshot_html request)
              (req_start_url request) (Some (req_prompt request)))
    as (p1 & P1).
  exists p1. split; [exact P1|].
  unfold act, act_try, HTMLOptimizer.optimize, generate.
  rewrite P1. cbn [bind]. split.
  - intros e H. rewrite H. reflexivity.
  - intros reduced H. rewrite H. cbn [bind].
    destruct (action_prompt_ok action_generator (req_prompt request)
                (strip reduced) (req_step_index request) (req_history request)
                (req_start_url request)) as (p2 & P2).
    exists p2. split; [exact P2|].
    unfold ActionGenerator.generate_action, generate.
    rewrite P2. cbn [bind].
    split; intros x G; rewrite G; reflexivity.
Qed.

(** X14. In the handler [parse_action] is given a trimmed text, so each
    of its fallbacks returns the generator's result itself: when the
    generator's result does not decode as JSON, or decodes to a value for
    which the body of the second [try] raises, the action of the response
    is that result, character for character. *)
Theorem act_fallback_is_generator_result (html_optimizer : HTMLOptimizer.t)
    (action_generator : ActionGenerator.t) (request : ActRequest)
    (optimized_html generated : str) :
  HTMLOptimizer.optimize html_optimizer (req_snapshot_html request)
    (req_start_url request) (Some (req_prompt request)) = Ok optimized_html ->
  ActionGenerator.generate_action action_generator (req_prompt request)
    optimized_html (req_step_index request) (req_history request)
    (req_start_url request) = Ok generated ->
  (Json.loads generated = None
   \/ exists data e,
        Json.loads generated = Some data
        /\ ActionGenerator.parse_action_try data = Raise e) ->
  act html_optimizer action_generator request
  = Response200
      (mkActResponse generated (req_task_id request) (req_step_index request)).
Proof.
  intros R G F. unfold act, act_try. rewrite R. cbn [bind]. rewrite G.
  cbn [bind]. do 2 f_equal.
  apply generate_action_inv in G as (reply & ->).
  destruct F as [L|(data & e & L & T)].
  - rewrite (ParserFacts.parse_action_not_loaded _ L). apply strip_idempotent.
  - rewrite (ParserFacts.parse_action_loaded _ L), T. apply strip_idempotent.
Qed.

End WithRuntime.
End HandlerMore.

(** ** The rendered action *)

Module RenderMore.
Import ActionGenerator More ParserFacts.

Section WithRuntime.
Context {rt : PyRuntime}.

Lemma loads_type_prefix (rest : str) : Json.loads (py "type=" ++ rest) = None.
Proof. vm_compute. reflexivity. Qed.

Lemma Action_str_prefix (obj : Action) :
  exists rest,
    Action_str obj
    = py "type=" ++ repr_str (Action_type obj) ++ py " selector=" ++ rest.
Proof.
  destruct obj as [a|a|a|a|a|a]; unfold Action_str, Action_type, field;
    cbn [join]; repeat rewrite <- app_assoc; eexists; reflexivity.
Qed.

(** X15. Every rendered action begins with the [type] field, holding the
    [repr] of the object's discriminant, and the [selector] field next,
    whatever the shape.  Such a text is never JSON: given to [parse_action]
    again it is only trimmed. *)
Theorem rendered_action_prefix (action_text : str) (data : JSON) (obj : Action) :
  Json.loads action_text = Some data ->
  build_action data = Ok obj ->
  (exists rest,
     parse_action action_text
     = py "type=" ++ repr_str (Action_type obj) ++ py " selector=" ++ rest)
  /\ Json.loads (parse_action action_text) = None
  /\ parse_action (parse_action action_text) = strip (parse_action action_text).
Proof.
  intros L B.
  assert (P : parse_action action_text = Action_str obj).
  { rewrite (parse_action_loaded _ L). unfold parse_action_try. rewrite B.
    reflexivity. }
  destruct (Action_str_prefix obj) as (rest & R).
  assert (N : Json.loads (parse_action action_text) = None).
  { rewrite P, R. apply loads_type_prefix. }
  split; [exists rest; rewrite P; exact R|].
  split; [exact N|]. apply parse_action_not_loaded. exact N.
Qed.

End WithRuntime.
End RenderMore.

(** ** Construction of the components *)

Module ClientFacts.
Import Client.

Lemma eqb_false (a b : str) : a <> b -> Str.eqb a b = false.
Proof.
  intros H. destruct (Str.eqb a b) eqn:E; [|reflexivity].
  apply StrFacts.eqb_eq in E. contradiction.
Qed.

Lemma LLMClient_init_raises (providers : Providers)
    (settings : Config.Settings) (e : PyExc) :
  _create_llm providers settings (Config.html_optimization_model settings)
    (Config.html_optimization_temperature settings)
    (Config.html_optimization_max_tokens settings) = Raise e ->
  LLMClient_init providers settings = Raise e.
Proof. intros H. unfold LLMClient_init. rewrite H. reflexivity. Qed.

Lemma startup_raises (providers : Providers) (settings : Config.Settings)
    (e : PyExc) :
  LLMClient_init providers settings = Raise e ->
  startup providers settings = Raise e.
Proof.
  intros H. unfold startup, HTMLOptimizer_init. rewrite H. reflexivity.
Qed.

(** X16. A provider name other than [openai], [anthropic] and [google]
    (the comparison is exact, so also one that differs in case) makes
    [_create_llm] raise [ValueError] with the message
    [Unsupported LLM provider: ] followed by the name, for every model; no
    chat model class is consulted, and neither the client nor the two
    components of [main.py] are constructed. *)
Theorem unsupported_provider_is_rejected (providers : Providers)
    (settings : Config.Settings) :
  Config.llm_provider settings <> py "openai" ->
  Config.llm_provider settings <> py "anthropic" ->
  Config.llm_provider settings <> py "google" ->
  let e :=
    mkExc (py "ValueError")
      (py "Unsupported LLM provider: " ++ Config.llm_provider settings) in
  (forall model temperature max_tokens,
     _create_llm providers settings model temperature max_tokens = Raise e)
  /\ LLMClient_init providers settings = Raise e
  /\ startup providers settings = Raise e.
Proof.
  intros O A G e.
  assert (C : forall model temperature max_tokens,
             _create_llm providers settings model temperature max_tokens
             = Raise e).
  { intros model temperature max_tokens. unfold _create_llm.
    rewrite (eqb_false O), (eqb_false A), (eqb_false G). reflexivity. }
  split; [exact C|].
  assert (I : LLMClient_init providers settings = Raise e).
  { apply LLMClient_init_raises. apply C. }
  split; [exact I|]. apply startup_raises. exact I.
Qed.

(** The key [_create_llm] reads for a provider it supports. *)
Lemma create_llm_missing_key (providers : Providers)
    (settings : Config.Settings) (model : str) (temperature : FloatLit)
    (max_tokens : Z) (provider : str) (key : option str) (message : str) :
  (provider = py "openai" /\ key = Config.openai_api_key settings
   /\ message = py "OpenAI API key is required when using OpenAI provider")
  \/ (provider = py "anthropic" /\ key = Config.anthropic_api_key settings
      /\ message
         = py "Anthropic API key is required when using Anthropic provider")
  \/ (provider = py "google" /\ key = Config.google_api_key settings
      /\ message = py "Google API key is required when using Google provider") ->
  Config.llm_provider settings = provider ->
  key = None \/ key = Some [] ->
  _create_llm providers settings model temperature max_tokens
  = Raise (mkExc (py "ValueError") message).
Proof.
  intros [ (-> & -> & ->) | [ (-> & -> & ->) | (-> & -> & ->) ] ] P K;
    unfold _create_llm; rewrite P; cbn [Str.eqb];
    destruct K as [-> | ->]; reflexivity.
Qed.

(** X17. When the key of the selected provider is [None] or empty,
    nothing is constructed: [_create_llm], the client and the start of
    [main.py] raise [ValueError] with the message that names the provider,
    whatever the chat model classes do and whatever the keys of the other
    two providers are.  This is what the declared defaults give. *)
Theorem missing_key_is_rejected (providers : Providers)
    (settings : Config.Settings) (provider : str) (key : option str)
    (message : str) :
  (provider = py "openai" /\ key = Config.openai_api_key settings
   /\ message = py "OpenAI API key is required when using OpenAI provider")
  \/ (provider = py "anthropic" /\ key = Config.anthropic_api_key settings
      /\ message
         = py "Anthropic API key is required when using Anthropic provider")
  \/ (provider = py "google" /\ key = Config.google_api_key settings
      /\ message = py "Google API key is required when using Google provider") ->
  Config.llm_provider settings = provider ->
  key = None \/ key = Some [] ->
  let e := mkExc (py "ValueError") message in
  (forall model temperature max_tokens,
     _create_llm providers settings model temperature max_tokens = Raise e)
  /\ LLMClient_init providers settings = Raise e
  /\ startup providers settings = Raise e.
Proof.
  intros S P K e.
  assert (C : forall model temperature max_tokens,
             _create_llm providers settings model temperature max_tokens
             = Raise e).
  { intros model temperature max_tokens.
    apply (create_llm_missing_key providers settings model temperature
             max_tokens S P K). }
  split; [exact C|].
  assert (I : LLMClient_init providers settings = Raise e).
  { apply LLMClient_init_raises. apply C. }
  split; [exact I|]. apply startup_raises. exact I.
Qed.

(** X18. [_create_llm] consults the class of the selected provider only,
    and reads that provider's key only: two configurations that agree on
    the provider, on its class and on its key build the same, whatever
    their other classes and keys are. *)
Theorem create_llm_reads_selected_provider_only (p p' : Providers)
    (s s' : Config.Settings) (model : str) (temperature : FloatLit)
    (max_tokens : Z) :
  Config.llm_provider s = Config.llm_provider s' ->
  (Config.llm_provider s = py "openai" ->
   Config.openai_api_key s = Config.openai_api_key s'
   /\ forall m t k key, ChatOpenAI p m t k key = ChatOpenAI p' m t k key) ->
  (Config.llm_provider s = py "anthropic" ->
   Config.anthropic_api_key s = Config.anthropic_api_key s'
   /\ forall m t k key, ChatAnthropic p m t k key = ChatAnthropic p' m t k key) ->
  (Config.llm_provider s = py "google" ->
   Config.google_api_key s = Config.google_api_key s'
   /\ forall m t k key,
        ChatGoogleGenerativeAI p m t k key
        = ChatGoogleGenerativeAI p' m t k key) ->
  _create_llm p s model temperature max_tokens
  = _create_llm p' s' model temperature max_tokens.
Proof.
  intros P O A G. unfold _create_llm. rewrite <- P.
  destruct (Str.eqb (Config.llm_provider s) (py "openai")) eqn:EO.
  { apply StrFacts.eqb_eq in EO. destruct (O EO) as (<- & C).
    destruct (Config.openai_api_key s) as [[|c key]|]; auto. }
  destruct (Str.eqb (Config.llm_provider s) (py "anthropic")) eqn:EA.
  { apply StrFacts.eqb_eq in EA. destruct (A EA) as (<- & C).
    destruct (Config.anthropic_api_key s) as [[|c key]|]; auto. }
  destruct (Str.eqb (Config.llm_provider s) (py "google")) eqn:EG.
  { apply StrFacts.eqb_eq in EG. destruct (G EG) as (<- & C).
    destruct (Config.google_api_key s) as [[|c key]|]; auto. }
  reflexivity.
Qed.

Section WithRuntime.
Context {rt : PyRuntime}.

(** X19. The start of [main.py] succeeds exactly when both chat models
    can be built, the one for reduction first; the failure of the first
    construction that fails is what the start raises.  On success the
    reducer sends its prompt to the model built from the
    [html_optimization] settings and the generator sends its prompt to the
    model built from the [action_generation] settings; each returns the
    trimmed reply or passes the model's exception on. *)
Theorem startup_wiring (providers : Providers) (settings : Config.Settings) :
  let reduction :=
    _create_llm providers settings (Config.html_optimization_model settings)
      (Config.html_optimization_temperature settings)
      (Config.html_optimization_max_tokens settings) in
  let generation :=
    _create_llm providers settings (Config.action_generation_model settings)
      (Config.action_generation_temperature settings)
      (Config.action_generation_max_tokens settings) in
  (forall e, reduction = Raise e -> startup providers settings = Raise e)
  /\ (forall reducer e,
        reduction = Ok reducer -> generation = Raise e ->
        startup providers settings = Raise e)
  /\ (forall reducer generator,
        reduction = Ok reducer -> generation = Ok generator ->
        exists html_optimizer action_generator,
          startup providers settings = Ok (html_optimizer, action_generator)
          /\ (forall html url task_context prompt,
                HTMLOptimizer._build_optimization_prompt html_optimizer html
                  url task_context = Ok prompt ->
                HTMLOptimizer.optimize html_optimizer html url task_context
                = (reply <- reducer prompt ;; Ok (strip reply))%res)
          /\ (forall prompt optimized_html step_index history url
                     action_prompt,
                ActionGenerator._build_action_prompt action_generator prompt
                  optimized_html step_index history url = Ok action_prompt ->
                ActionGenerator.generate_action action_generator prompt
                  optimized_html step_index history url
                = (reply <- generator action_prompt ;; Ok (strip reply))%res)).
Proof.
  intros reduction generation. split; [|split].
  - intros e R. apply startup_raises, LLMClient_init_raises. exact R.
  - intros reducer e R G. apply startup_raises.
    unfold LLMClient_init. fold reduction generation. rewrite R, G.
    reflexivity.
  - intros reducer generator R G.
    assert (I : LLMClient_init providers settings
                = Ok (mkLLMClient (Config.core settings) reducer generator)).
    { unfold LLMClient_init. fold reduction generation. rewrite R, G.
      reflexivity. }
    eexists. eexists. split.
    + unfold startup, HTMLOptimizer_init, ActionGenerator_init.
      rewrite I. reflexivity.
    + split.
      * intros html url task_context prompt P.
        unfold HTMLOptimizer.optimize. rewrite P. reflexivity.
      * intros prompt optimized_html step_index history url action_prompt P.
        unfold ActionGenerator.generate_action. rewrite P. reflexivity.
Qed.

End WithRuntime.
End ClientFacts.

(** ** The logged preview *)

Module PreviewFacts.
Import More.

Lemma newline_mapped (action : str) :
  ~ In 10 (List.map (fun c => if c =? 10 then 32 else c) action).
Proof.
  intros H. apply in_map_iff in H as (c & E & _).
  destruct (c =? 10) eqn:D; [discriminate|].
  apply N.eqb_neq in D. contradiction.
Qed.

Lemma map_without_newline (action : str) :
  ~ In 10 action ->
  List.map (fun c => if c =? 10 then 32 else c) action = action.
Proof.
  induction action as [|c action IH]; intros H; [reflexivity|].
  cbn [List.map]. rewrite IH by (intros I; apply H; right; exact I).
  destruct (c =? 10) eqn:D; [|reflexivity].
  apply N.eqb_eq in D. exfalso. apply H. left. exact D.
Qed.

(** X20. The preview of the action that the handler logs has no line
    feed and at most 403 characters.  An action of at most 400 characters
    is only changed by having each line feed replaced by a space, so it is
    logged as it is when it has none; a longer one is cut to its first 400
    characters, with three dots after them. *)
Theorem action_preview_bounds (action : str) :
  ~ In 10 (action_preview action)
  /\ (List.length (action_preview action) <= 403)%nat
  /\ ((List.length action <= 400)%nat ->
      List.length (action_preview action) = List.length action
      /\ (~ In 10 action -> action_preview action = action))
  /\ ((400 < List.length action)%nat ->
      List.length (action_preview action) = 403%nat
      /\ endswith (action_preview action) (py "...") = true
      /\ (~ In 10 action ->
          action_preview action = firstn 400 action ++ py "...")).
Proof.
  unfold action_preview. cbv zeta. rewrite length_map.
  pose proof (newline_mapped action) as M.
  destruct (Nat.ltb_spec 400 (List.length action)) as [L|L].
  - split; [|split; [|split]].
    + intros H. apply in_app_or in H as [H|H].
      * apply M. rewrite <- (firstn_skipn 400). apply in_or_app. left.
        exact H.
      * simpl in H. intuition discriminate.
    + rewrite length_app, length_firstn, length_map.
        change (List.length (py "...")) with 3%nat. lia.
    + intros H. lia.
    + intros _. split; [|split].
      * rewrite length_app, length_firstn, length_map.
        change (List.length (py "...")) with 3%nat. lia.
      * apply StrFacts.endswith_app.
      * intros H. rewrite map_without_newline by exact H. reflexivity.
  - split; [exact M|]. split; [rewrite length_map; lia|]. split.
    + intros _. split; [apply length_map|]. apply map_without_newline.
    + intros H. lia.
Qed.

End PreviewFacts.

(** ** Concrete runs of the further properties *)

Module MoreRuns.
Import ActionGenerator Spec More Samples.

(** The unknown action [scroll] is built as the generic shape, tagged
    [scrollAction]. *)
Lemma built_shape_tag_run :
  exists d s,
    JDict scroll_object = JDict d
    /\ read_discriminant (JDict scroll_object) = Ok (JStr s)
    /\ s <> []
    /\ Action_type (ABase (mkBaseAction (py "scrollAction") None)) = normalize s
    /\ endswith (Action_type (ABase (mkBaseAction (py "scrollAction") None)))
         (py "Action") = true.
Proof.
  apply (@ParserMore.built_shape_tag Example.runtime (JDict scroll_object)
           (ABase (mkBaseAction (py "scrollAction") None))).
  vm_compute. reflexivity.
Defined.

(** The reply with the unknown action [scroll] is rendered. *)
Lemma unknown_discriminant_is_rendered_run :
  parse_action (rt := Example.runtime) scroll_reply
  = py "type='scrollAction' selector=None".
Proof.
  rewrite (@ParserMore.unknown_discriminant_is_rendered Example.runtime
             scroll_reply scroll_object (py "scroll") None).
  - vm_compute. reflexivity.
  - vm_compute. reflexivity.
  - vm_compute. reflexivity.
  - discriminate.
  - vm_compute. intuition discriminate.
  - vm_compute. reflexivity.
Defined.

(** A Navigate reply with a selector of an unknown kind comes back as it
    is. *)
Lemma invalid_selector_object_falls_back_run :
  parse_action (rt := Example.runtime) navigate_css_reply = navigate_css_reply.
Proof.
  rewrite (@ParserMore.invalid_selector_object_falls_back Example.runtime
             navigate_css_reply navigate_css_object css_kwargs ValidationError).
  - vm_compute. reflexivity.
  - vm_compute. reflexivity.
  - vm_compute. reflexivity.
  - vm_compute. reflexivity.
Defined.

(** A Navigate reply with a valid selector is built without it. *)
Lemma navigate_and_wait_drop_selector_run :
  action_selector_of
    (ANavigate
       (mkNavigateAction (py "NavigateAction") None (Some (py "https://a.b"))))
  = None.
Proof.
  apply (@ParserMore.navigate_and_wait_drop_selector Example.runtime
           (JDict navigate_object)
           (ANavigate
              (mkNavigateAction (py "NavigateAction") None
                 (Some (py "https://a.b"))))).
  - vm_compute. reflexivity.
  - left. vm_compute. reflexivity.
Defined.

(** A Type reply with a text. *)
Lemma type_and_select_payload_run :
  parse_action (rt := Example.runtime) type_reply
  = Action_str (rt := Example.runtime)
      (AType (mkTypeAction (py "TypeAction") xpath (py "hello"))).
Proof.
  apply (proj1 (proj2
           (proj1 (@ParserMore.type_and_select_payload Example.runtime
                     type_reply type_object xpath
                     ltac:(vm_compute; reflexivity)
                     ltac:(vm_compute; reflexivity))
              ltac:(vm_compute; reflexivity)))
           (py "hello")).
  vm_compute. reflexivity.
Defined.

(** A [confidence] key changes nothing. *)
Lemma unread_keys_are_ignored_run :
  build_action (rt := Example.runtime)
    (JDict (dict_set navigate_object (py "confidence") (JInt 1)))
  = build_action (rt := Example.runtime) (JDict navigate_object).
Proof.
  apply (@ParserMore.unread_keys_are_ignored Example.runtime navigate_object
           (py "confidence") (JInt 1)).
  vm_compute. intuition discriminate.
Defined.

(** With [type] given, [action] changes nothing. *)
Lemma action_key_unused_when_type_truthy_run :
  build_action (rt := Example.runtime)
    (JDict (dict_set [(py "type", JStr (py "click"))] (py "action")
              (JStr (py "navigate"))))
  = build_action (rt := Example.runtime)
      (JDict [(py "type", JStr (py "click"))]).
Proof.
  apply (@ParserMore.action_key_unused_when_type_truthy Example.runtime
           [(py "type", JStr (py "click"))] (JStr (py "navigate"))).
  vm_compute. reflexivity.
Defined.

(** The keywords of an XPath selector are accepted. *)
Lemma selector_accepted_iff_run : Selector_init xpath_kwargs = Ok xpath.
Proof.
  apply (proj2 (ParserMore.selector_accepted_iff xpath_kwargs XPATH_SELECTOR
                  None (py "//a"))).
  vm_compute. repeat split; reflexivity.
Defined.

(** The prompt for a history of two entries. *)
Lemma action_prompt_layout_run :
  exists head tail,
    _build_action_prompt (rt := Example.runtime)
      (Example.action_generator (Example.failing [])) (py "Log in")
      (py "<html></html>") 2 history (py "https://a.b")
    = Ok (head
          ++ py "Task:" ++ [10] ++ py "Log in" ++ [10; 10]
          ++ py "Current URL:" ++ [10] ++ py "https://a.b" ++ [10; 10]
          ++ py "Step:" ++ [10] ++ py "2" ++ [10; 10]
          ++ py "Previous Actions:" ++ [10]
          ++ (py "Step 1: click" ++ [10] ++ py "  Result: ok" ++ [10]
              ++ py "Step 2: type") ++ [10; 10]
          ++ py "Current Page HTML (optimized):" ++ [10]
          ++ py "<html></html>" ++ tail).
Proof.
  destruct (@PromptMore.action_prompt_layout Example.runtime)
    as (head & tail & H).
  exists head, tail.
  exact (proj1 (H (Example.action_generator (Example.failing [])) (py "Log in")
                  (py "<html></html>") 2%Z history (py "https://a.b"))).
Defined.

(** The optimisation prompt of the handler's call. *)
Lemma optimization_prompt_layout_run :
  exists head tail,
    HTMLOptimizer._build_optimization_prompt (rt := Example.runtime)
      (Example.html_optimizer (Example.failing [])) (py "<html></html>")
      (py "https://a.b") (Some (py "Log in"))
    = Ok (head ++ py "Input URL:" ++ [10] ++ py "https://a.b" ++ [10; 10]
          ++ py "Raw HTML:" ++ [10]
          ++ (py "Task Context:" ++ [10] ++ py "Log in" ++ [10; 10]
              ++ py "<html></html>") ++ tail).
Proof.
  destruct (@PromptMore.optimization_prompt_layout Example.runtime)
    as (head & tail & H).
  exists head, tail.
  exact (H (Example.html_optimizer (Example.failing [])) (py "<html></html>")
           (py "https://a.b") (Some (py "Log in"))).
Defined.

(** Two entries, one with a result: three lines. *)
Lemma history_line_count_run :
  List.length (snd (fold_left (format_entry (rt := Example.runtime)) history (1%N, [])))
  = 3%nat
  /\ In (py "Step 2: type")
       (snd (fold_left (format_entry (rt := Example.runtime)) history (1%N, []))).
Proof.
  split.
  - exact (proj1 (@PromptMore.history_line_count Example.runtime history)).
  - exact (proj2 (proj2 (@PromptMore.history_line_count Example.runtime history))
             1%nat [ (py "action", JStr (py "type")) ] eq_refl).
Defined.

(** The generator's result for a padded reply is trimmed. *)
Lemma orchestrator_results_are_trimmed_run :
  trimmed (py "click #button") /\ strip (py "click #button") = py "click #button".
Proof.
  apply (proj2 (@HandlerMore.orchestrator_results_are_trimmed Example.runtime)
           (Example.action_generator (Example.replying (py "   click #button   ")))
           (py "Click button") (py "<html></html>") 0%Z []
           (py "https://example.com") (py "click #button")).
  vm_compute. reflexivity.
Defined.

(** The handler on a padded JSON reply. *)
Lemma act_pipeline_run :
  Main.act (rt := Example.runtime)
    (Example.html_optimizer (Example.replying (py " <html></html> ")))
    (Example.action_generator (Example.replying (py "  " ++ scroll_reply)))
    Example.request
  = Main.Response200
      (Main.mkActResponse
         (parse_action (rt := Example.runtime) (strip (py "  " ++ scroll_reply)))
         (py "task_123") 0).
Proof.
  destruct (@HandlerMore.act_pipeline Example.runtime
              (Example.html_optimizer (Example.replying (py " <html></html> ")))
              (Example.action_generator
                 (Example.replying (py "  " ++ scroll_reply)))
              Example.request)
    as (p1 & _ & _ & H1).
  destruct (H1 (py " <html></html> ") eq_refl) as (p2 & _ & _ & H2).
  exact (H2 (py "  " ++ scroll_reply) eq_refl).
Defined.

(** The handler on a plain-text reply. *)
Lemma act_fallback_is_generator_result_run :
  Main.act (rt := Example.runtime)
    (Example.html_optimizer (Example.replying (py " <html></html> ")))
    (Example.action_generator (Example.replying (py "  click the button  ")))
    Example.request
  = Main.Response200
      (Main.mkActResponse (py "click the button") (py "task_123") 0).
Proof.
  apply (@HandlerMore.act_fallback_is_generator_result Example.runtime
           (Example.html_optimizer (Example.replying (py " <html></html> ")))
           (Example.action_generator
              (Example.replying (py "  click the button  ")))
           Example.request (py "<html></html>") (py "click the button")).
  - vm_compute. reflexivity.
  - vm_compute. reflexivity.
  - left. vm_compute. reflexivity.
Defined.

(** The rendering of the unknown action [scroll]. *)
Lemma rendered_action_prefix_run :
  (exists rest,
     parse_action (rt := Example.runtime) scroll_reply
     = py "type=" ++ repr_str (rt := Example.runtime) (py "scrollAction")
       ++ py " selector=" ++ rest)
  /\ Json.loads (parse_action (rt := Example.runtime) scroll_reply) = None
  /\ parse_action (rt := Example.runtime)
       (parse_action (rt := Example.runtime) scroll_reply)
     = strip (parse_action (rt := Example.runtime) scroll_reply).
Proof.
  apply (@RenderMore.rendered_action_prefix Example.runtime scroll_reply
           (JDict scroll_object)
           (ABase (mkBaseAction (py "scrollAction") None))).
  - vm_compute. reflexivity.
  - vm_compute. reflexivity.
Defined.

(** The provider name is compared exactly: [OpenAI] is not [openai]. *)
Lemma unsupported_provider_is_rejected_run :
  Client.startup (Client.mkProviders (building []) (building []) (building []))
    (with_provider (py "OpenAI"))
  = Raise (mkExc (py "ValueError") (py "Unsupported LLM provider: OpenAI")).
Proof.
  exact (proj2 (proj2
           (@ClientFacts.unsupported_provider_is_rejected
              (Client.mkProviders (building []) (building []) (building []))
              (with_provider (py "OpenAI"))
              ltac:(intros H; vm_compute in H; discriminate H)
              ltac:(intros H; vm_compute in H; discriminate H)
              ltac:(intros H; vm_compute in H; discriminate H)))).
Defined.

(** With the declared defaults nothing is constructed. *)
Lemma missing_key_is_rejected_run :
  Client.startup (Client.mkProviders (building []) (building []) (building []))
    Config.defaults
  = Raise (mkExc (py "ValueError")
             (py "OpenAI API key is required when using OpenAI provider")).
Proof.
  exact (proj2 (proj2
           (@ClientFacts.missing_key_is_rejected
              (Client.mkProviders (building []) (building []) (building []))
              Config.defaults (py "openai") None
              (py "OpenAI API key is required when using OpenAI provider")
              (or_introl (conj eq_refl (conj eq_refl eq_refl)))
              eq_refl (or_introl eq_refl)))).
Defined.

(** With OpenAI selected, the other classes and the key of Anthropic make
    no difference. *)
Lemma create_llm_reads_selected_provider_only_run :
  Client._create_llm
    (Client.mkProviders (building (py "a")) refusing refusing)
    (with_keys (Some (py "sk-1")) None) (py "gpt-4o") (FDec false 3 (-1)) 500
  = Client._create_llm
      (Client.mkProviders (building (py "a")) (building (py "b"))
         (building (py "c")))
      (with_keys (Some (py "sk-1")) (Some (py "sk-2"))) (py "gpt-4o")
      (FDec false 3 (-1)) 500.
Proof.
  apply (@ClientFacts.create_llm_reads_selected_provider_only
           (Client.mkProviders (building (py "a")) refusing refusing)
           (Client.mkProviders (building (py "a")) (building (py "b"))
              (building (py "c")))
           (with_keys (Some (py "sk-1")) None)
           (with_keys (Some (py "sk-1")) (Some (py "sk-2")))
           (py "gpt-4o") (FDec false 3 (-1)) 500%Z).
  - reflexivity.
  - intros _. split; [reflexivity|]. intros m t k key. reflexivity.
  - intros H. vm_compute in H. discriminate H.
  - intros H. vm_compute in H. discriminate H.
Defined.

(** With a key and classes that build, both components are constructed. *)
Lemma startup_wiring_run :
  exists html_optimizer action_generator,
    Client.startup
      (Client.mkProviders (building (py "ok")) refusing refusing)
      (with_keys (Some (py "sk-1")) None)
    = Ok (html_optimizer, action_generator).
Proof.
  destruct (proj2 (proj2
              (@ClientFacts.startup_wiring Example.runtime
                 (Client.mkProviders (building (py "ok")) refusing refusing)
                 (with_keys (Some (py "sk-1")) None)))
              (Example.replying (py "ok")) (Example.replying (py "ok"))
              eq_refl eq_refl)
    as (html_optimizer & action_generator & S & _).
  exists html_optimizer, action_generator. exact S.
Defined.

(** A short action with a line feed keeps its length in the preview; one
    without is logged as it is. *)
Lemma action_preview_bounds_run :
  List.length (action_preview (py "click" ++ [10] ++ py "now")) = 9%nat
  /\ action_preview (py "click now") = py "click now".
Proof.
  split.
  - exact (proj1 (proj1 (proj2 (proj2
             (PreviewFacts.action_preview_bounds
                (py "click" ++ [10] ++ py "now"))))
             ltac:(vm_compute; lia))).
  - exact (proj2 (proj1 (proj2 (proj2
             (PreviewFacts.action_preview_bounds (py "click now"))))
             ltac:(vm_compute; lia))
             ltac:(vm_compute; intuition discriminate)).
Defined.

End MoreRuns.
